(** * DepthInstance3DBoxes: 3D boxes of instances in Depth coordinates

    A shallow embedding of [mmdet3d/core/bbox/structures/depth_box3d.py].

    The box tensor is an [N x box_dim] table whose rows are
    [(x, y, z, x_size, y_size, z_size, yaw, ...)].  Cells are modelled as
    real numbers, so every arithmetic step of the source is exact; the
    constant [np.pi] is [PI].  The methods that assign into [self.tensor]
    are state transformers over the box object, and an exception leaves
    the object as it was when the exception was raised. *)

From Stdlib Require Import Reals Lra Lia.
From stdpp Require Import base list strings.

#[local] Open Scope R_scope.

(** ** Numeric tables *)

(** [r[j]] for a row of the table.  Construction fixes the width of every
    row to [box_dim], so the default is never read on a well-formed table. *)
Definition cell (r : list R) (j : nat) : R := default 0 (r !! j).

(** Membership of a column index in the Python slice [start::step]. *)
Definition in_slice (start step j : nat) : bool :=
  bool_decide (start ≤ j)%nat && bool_decide ((j - start) mod step = 0)%nat.

(** [r[start::step] = f(r[start::step])], elementwise. *)
Definition map_slice (f : R → R) (start step : nat) (r : list R) : list R :=
  imap (λ j v, if in_slice start step j then f v else v) r.

(** [r[idxs]] with a list of column indices. *)
Definition index_select (idxs : list nat) (r : list R) : list R :=
  cell r <$> idxs.

Definition vec3 : Type := R * R * R.
Definition mat3 : Type := vec3 * vec3 * vec3.

Definition vx (v : vec3) : R := v.1.1.
Definition vy (v : vec3) : R := v.1.2.
Definition vz (v : vec3) : R := v.2.

(** [M.T] *)
Definition mat3_T (m : mat3) : mat3 :=
  let '((a00, a01, a02), (a10, a11, a12), (a20, a21, a22)) := m in
  ((a00, a10, a20), (a01, a11, a21), (a02, a12, a22)).

(** [v @ M] for a row vector [v]. *)
Definition vec3_matmul (v : vec3) (m : mat3) : vec3 :=
  let '((a00, a01, a02), (a10, a11, a12), (a20, a21, a22)) := m in
  let '(x, y, z) := v in
  (x * a00 + y * a10 + z * a20,
   x * a01 + y * a11 + z * a21,
   x * a02 + y * a12 + z * a22).

Definition vec3_mul (u v : vec3) : vec3 := (vx u * vx v, vy u * vy v, vz u * vz v).
Definition vec3_add (u v : vec3) : vec3 := (vx u + vx v, vy u + vy v, vz u + vz v).
Definition vec3_sub (u v : vec3) : vec3 := (vx u - vx v, vy u - vy v, vz u - vz v).

(** [r[0:3]] read as a 3-vector, and [r[0:3] = v]. *)
Definition get_xyz (r : list R) : vec3 := (cell r 0, cell r 1, cell r 2).
Definition set_xyz (v : vec3) (r : list R) : list R :=
  <[0%nat := vx v]> (<[1%nat := vy v]> (<[2%nat := vz v]> r)).

(** [r[:3] = r[:3] @ m] on one row. *)
Definition matmul_xyz (m : mat3) (r : list R) : list R :=
  set_xyz (vec3_matmul (get_xyz r) m) r.

Definition list_max (l : list R) : R :=
  match l with [] => 0 | x :: l' => foldl Rmax x l' end.
Definition list_min (l : list R) : R :=
  match l with [] => 0 | x :: l' => foldl Rmin x l' end.

#[local] Instance Rlt_decision (x y : R) : Decision (x < y) := Rlt_dec x y.
#[local] Instance Rgt_decision (x y : R) : Decision (x > y) := Rgt_dec x y.
#[local] Instance Req_decision : EqDecision R := Req_dec_T.

(** ** Python values and exceptions *)

Inductive exn : Type := ValueError | AssertionError | IndexError.

Inductive res (A : Type) : Type :=
  | Ok (a : A)
  | Raise (e : exn).
Arguments Ok {A} a.
Arguments Raise {A} e.

(** What a caller may pass as [points]: [None], a [torch.Tensor] or a
    [numpy.ndarray] of point rows, or an object of any other kind. *)
Inductive py_points : Type :=
  | PyNone
  | TorchTensor (p : list (list R))
  | NpArray (p : list (list R))
  | PyOther.

(** ** The box object *)

Record BoxSet : Type := mkBoxSet {
  tensor : list (list R);
  box_dim : nat;
  with_yaw : bool
}.

(** The table is [N x box_dim] and a row holds at least the seven box
    fields. *)
Definition wf (b : BoxSet) : Prop :=
  (7 ≤ box_dim b)%nat ∧ Forall (λ r, length r = box_dim b) (tensor b).

(** State and exceptions: a method runs on the box object and leaves it in
    the state reached when it returned or raised. *)
Definition M (A : Type) : Type := BoxSet → BoxSet * res A.

Definition ret {A} (a : A) : M A := λ s, (s, Ok a).
Definition raise {A} (e : exn) : M A := λ s, (s, Raise e).
Definition bind {A B} (m : M A) (k : A → M B) : M B :=
  λ s, match m s with
       | (s', Ok a) => k a s'
       | (s', Raise e) => (s', Raise e)
       end.

Declare Scope boxm_scope.
Delimit Scope boxm_scope with boxm.
Notation "'let*' x ':=' m 'in' k" := (bind m (λ x, k))
  (at level 10, x name, m at level 100, k at level 200) : boxm_scope.
Notation "m '>>' k" := (bind m (λ _, k))
  (at level 100, k at level 200, right associativity) : boxm_scope.
#[local] Open Scope boxm_scope.

Definition self : M BoxSet := λ s, (s, Ok s).
(** [self.tensor[...] = ...]: the rows are rewritten in place, the shape
    and the flags stay. *)
Definition modify_rows (f : list R → list R) : M unit :=
  λ s, (mkBoxSet (f <$> tensor s) (box_dim s) (with_yaw s), Ok tt).
Definition set_tensor (t : list (list R)) : M unit :=
  λ s, (mkBoxSet t (box_dim s) (with_yaw s), Ok tt).
Definition lift {A} (r : res A) : M A := λ s, (s, r).

(** The object after a call, and what the call returned. *)
Definition after {A} (m : M A) (b : BoxSet) : BoxSet := (m b).1.
Definition outcome {A} (m : M A) (b : BoxSet) : res A := (m b).2.

(** ** Properties of the base class used here *)

(** [bottom_center]: [self.tensor[:, :3]]. *)
Definition bottom_center (b : BoxSet) : list vec3 := get_xyz <$> tensor b.
(** [dims]: [self.tensor[:, 3:6]]. *)
Definition dims_row (r : list R) : vec3 := (cell r 3, cell r 4, cell r 5).
Definition dims (b : BoxSet) : list vec3 := dims_row <$> tensor b.
(** [yaw]: [self.tensor[:, 6]]. *)
Definition yaw (b : BoxSet) : list R := (λ r, cell r 6) <$> tensor b.

(** ** Helpers of [.utils] *)

(** Modelled from the spec: [limit_period] of [.utils] is not among the
    sources; the specification gives it as
    [v - floor(v / p + f) * p]. *)
Definition limit_period (v f p : R) : R :=
  v - IZR (Zfloor (v / p + f)) * p.

(** Modelled from the spec: [rotation_3d_in_axis] of [.utils] is not among
    the sources.  It is called with [axis=2] only, for which the
    specification rotates about the vertical axis with the matrix of
    [rotate], [[[cos a, -sin a, 0], [sin a, cos a, 0], [0, 0, 1]]],
    transposed for right-multiplication. *)
Definition rotation_3d_in_axis (points : list vec3) (angle : R) : list vec3 :=
  let rot_sin := sin angle in
  let rot_cos := cos angle in
  let rot_mat_T :=
    mat3_T ((rot_cos, - rot_sin, 0), (rot_sin, rot_cos, 0), (0, 0, 1)) in
  (λ p, vec3_matmul p rot_mat_T) <$> points.

(** ** [gravity_center] *)

Definition gravity_center (b : BoxSet) : list vec3 :=
  zip_with (λ bc r, (vx bc, vy bc, vz bc + cell r 5 * 0.5))
    (bottom_center b) (tensor b).

(** ** [corners] *)

(** [np.stack(np.unravel_index(np.arange(8), [2] * 3), axis=1)] *)
Definition unravel_index_222 (i : nat) : nat * nat * nat :=
  ((i / 4) mod 2, (i / 2) mod 2, i mod 2)%nat.

Definition corners_norm_int : list (nat * nat * nat) :=
  (λ k, unravel_index_222 k) <$> [0; 1; 3; 2; 4; 5; 7; 6]%nat.

Definition corners_norm : list vec3 :=
  (λ c : nat * nat * nat,
     vec3_sub (INR c.1.1, INR c.1.2, INR c.2) (0.5, 0.5, 0))
  <$> corners_norm_int.

(** The eight corners of the box in row [r]. *)
Definition corners_row (r : list R) : list vec3 :=
  let dims := dims_row r in
  let corners := (λ c, vec3_mul dims c) <$> corners_norm in
  let corners := rotation_3d_in_axis corners (cell r 6) in
  (λ c, vec3_add c (get_xyz r)) <$> corners.

Definition corners (b : BoxSet) : res (list (list vec3)) :=
  if bool_decide (length (tensor b) ≠ 0%nat)
  then Ok (corners_row <$> tensor b)
  else Raise AssertionError.

(** ** [bev] and [nearest_bev] *)

Definition bev (b : BoxSet) : list (list R) :=
  index_select [0; 1; 3; 4; 6]%nat <$> tensor b.

Definition nearest_bev_row (bev_rotated_box : list R) : list R :=
  let rotation := cell bev_rotated_box 4 in
  let normed_rotation := Rabs (limit_period rotation 0.5 PI) in
  let condition := bool_decide (normed_rotation > PI / 4) in
  let bbox_xywh :=
    if condition then index_select [0; 1; 3; 2]%nat bev_rotated_box
    else take 4 bev_rotated_box in
  let centers := take 2 bbox_xywh in
  let dims := drop 2 bbox_xywh in
  zip_with (λ c d, c - d / 2) centers dims
  ++ zip_with (λ c d, c + d / 2) centers dims.

Definition nearest_bev (b : BoxSet) : list (list R) :=
  nearest_bev_row <$> bev b.

(** ** [rotate] *)

(** [points[:, :3] = points[:, :3] @ rot_mat_T] *)
Definition rotate_points (rot_mat_T : mat3) (p : list (list R)) : list (list R) :=
  matmul_xyz rot_mat_T <$> p.

Definition rotate (angle : R) (points : py_points) : M (option (py_points * mat3)) :=
  let rot_sin := sin angle in
  let rot_cos := cos angle in
  let rot_mat_T :=
    mat3_T ((rot_cos, - rot_sin, 0), (rot_sin, rot_cos, 0), (0, 0, 1)) in
  modify_rows (matmul_xyz rot_mat_T) >>
  let* b := self in
  (if with_yaw b then
     modify_rows (alter (λ y, y - angle) 6%nat)
   else
     let* cs := lift (corners b) in
     let corners_rot := fmap (λ c, vec3_matmul c rot_mat_T) <$> cs in
     let new_x_size :=
       (λ cr, list_max (vx <$> cr) - list_min (vx <$> cr)) <$> corners_rot in
     let new_y_size :=
       (λ cr, list_max (vy <$> cr) - list_min (vy <$> cr)) <$> corners_rot in
     set_tensor
       (zip_with (λ r nxy, <[3%nat := nxy.1]> (<[4%nat := nxy.2]> r))
          (tensor b) (zip new_x_size new_y_size))) >>
  match points with
  | PyNone => ret None
  | TorchTensor p => ret (Some (TorchTensor (rotate_points rot_mat_T p), rot_mat_T))
  | NpArray p => ret (Some (NpArray (rotate_points rot_mat_T p), rot_mat_T))
  | PyOther => raise ValueError
  end.

(** ** [flip] *)

(** [points[:, k] = -points[:, k]] *)
Definition flip_points (k : nat) (p : list (list R)) : list (list R) :=
  alter Ropp k <$> p.

Definition flip (bev_direction : string) (points : py_points) : M (option py_points) :=
  if negb (bool_decide (bev_direction ∈ ["horizontal"; "vertical"]))
  then raise AssertionError
  else
    let* b := self in
    (if bool_decide (bev_direction = "horizontal") then
       modify_rows (map_slice Ropp 0 7) >>
       (if with_yaw b then modify_rows (alter (λ y, - y + PI) 6%nat) else ret tt)
     else if bool_decide (bev_direction = "vertical") then
       modify_rows (map_slice Ropp 1 7) >>
       (if with_yaw b then modify_rows (alter (λ y, - y) 6%nat) else ret tt)
     else ret tt) >>
    match points with
    | PyNone => ret None
    | PyOther => raise AssertionError
    | TorchTensor p =>
        if bool_decide (bev_direction = "horizontal")
        then ret (Some (TorchTensor (flip_points 0 p)))
        else if bool_decide (bev_direction = "vertical")
        then ret (Some (TorchTensor (flip_points 1 p)))
        else ret (Some points)
    | NpArray p =>
        if bool_decide (bev_direction = "horizontal")
        then ret (Some (NpArray (flip_points 0 p)))
        else if bool_decide (bev_direction = "vertical")
        then ret (Some (NpArray (flip_points 1 p)))
        else ret (Some points)
    end.

(** ** [in_range_bev] *)

Definition in_range_bev (b : BoxSet) (box_range : list R) : res (list bool) :=
  match box_range !! 0%nat, box_range !! 1%nat,
        box_range !! 2%nat, box_range !! 3%nat with
  | Some r0, Some r1, Some r2, Some r3 =>
      Ok ((λ r, bool_decide (cell r 0 > r0) && bool_decide (cell r 1 > r1)
                && bool_decide (cell r 0 < r2) && bool_decide (cell r 1 < r3))
          <$> tensor b)
  | _, _, _, _ => Raise IndexError
  end.

(** ** [convert_to] and [points_in_boxes] *)

Inductive Box3DMode : Type := LIDAR | CAM | DEPTH.

(** The query points: a tensor of [dim() = 2] or of [dim() = 3]. *)
Inductive points_tensor : Type :=
  | Pts2 (p : list (list R))
  | Pts3 (p : list (list (list R))).

(** The answer of the containment primitive, and that answer with its
    leading dimension removed. *)
Inductive index_tensor : Type :=
  | Idx2 (t : list (list Z))
  | Idx3 (t : list (list (list Z))).

(** [t.squeeze(0)]: the leading dimension goes when its size is 1. *)
Definition squeeze0 (t : list (list (list Z))) : index_tensor :=
  match t with
  | [x] => Idx2 x
  | _ => Idx3 t
  end.

(** [p[[1, 0, 2]]] on one point; a point with fewer than three columns
    cannot be indexed. *)
Definition select_102 (p : list R) : res (list R) :=
  match p !! 1%nat, p !! 0%nat, p !! 2%nat with
  | Some a, Some b, Some c => Ok [a; b; c]
  | _, _, _ => Raise IndexError
  end.

Fixpoint mapM_res {A B} (f : A → res B) (l : list A) : res (list B) :=
  match l with
  | [] => Ok []
  | x :: l' =>
      match f x with
      | Raise e => Raise e
      | Ok y => match mapM_res f l' with
                | Raise e => Raise e
                | Ok ys => Ok (y :: ys)
                end
      end
  end.

(** [points_lidar = points[..., [1, 0, 2]]; points_lidar[..., 1] *= -1] on
    an [M x 3] block of points. *)
Definition to_lidar_block (p : list (list R)) : res (list (list R)) :=
  match mapM_res select_102 p with
  | Raise e => Raise e
  | Ok q => Ok (alter (λ v, v * -1) 1%nat <$> q)
  end.

Section Containment.
(** The collaborators that live outside this file: the conversion
    registry [Box3DMode.convert] and the batched point-in-box primitive
    [mmdet3d.ops.points_in_boxes_batch]. *)
Variable Box3DMode_convert :
  BoxSet → Box3DMode → Box3DMode → option (list (list R)) → BoxSet.
Variable points_in_boxes_batch :
  list (list (list R)) → list (list (list R)) → list (list (list Z)).

Definition convert_to (b : BoxSet) (dst : Box3DMode)
    (rt_mat : option (list (list R))) : BoxSet :=
  Box3DMode_convert b DEPTH dst rt_mat.

Definition points_in_boxes (b : BoxSet) (points : points_tensor)
    : res index_tensor :=
  let points_lidar :=
    match points with
    | Pts2 p =>
        match to_lidar_block p with
        | Raise e => Raise e
        | Ok q => Ok [q]
        end
    | Pts3 p =>
        match mapM_res to_lidar_block p with
        | Raise e => Raise e
        | Ok q =>
            if bool_decide (length q = 1%nat) then Ok q
            else Raise AssertionError
        end
    end in
  match points_lidar with
  | Raise e => Raise e
  | Ok points_lidar =>
      let boxes_lidar := tensor (convert_to b LIDAR None) in
      let boxes_lidar := [boxes_lidar] in
      let box_idxs_of_pts := points_in_boxes_batch points_lidar boxes_lidar in
      Ok (squeeze0 box_idxs_of_pts)
  end.
End Containment.

(** ** Notions used to state the properties *)

(** Cell [(i, j)] of the table, when the table has it. *)
Definition entry (b : BoxSet) (i j : nat) : option R :=
  tensor b !! i ≫= λ r, r !! j.

(** What [flip] does to one row: the strided negation of
    [self.tensor[:, k::7]] followed, for boxes with yaw, by the update [f]
    of column 6. *)
Definition flip_row (k : nat) (f : R → R) (w : bool) (r : list R) : list R :=
  let r' := map_slice Ropp k 7 r in
  if w then alter f 6%nat r' else r'.

Definition flipped (k : nat) (f : R → R) (b : BoxSet) : BoxSet :=
  mkBoxSet (flip_row k f (with_yaw b) <$> tensor b) (box_dim b) (with_yaw b).

(** The point [p] lies in the axis-aligned rectangle
    [(xmin, ymin, xmax, ymax)] of the horizontal plane. *)
Definition rect_contains (rect : list R) (p : vec3) : Prop :=
  cell rect 0 <= vx p <= cell rect 2 ∧ cell rect 1 <= vy p <= cell rect 3.

(** The matrix [rot_mat_T] that [rotate] builds for an angle. *)
Definition rot_mat_T (angle : R) : mat3 :=
  mat3_T ((cos angle, - sin angle, 0), (sin angle, cos angle, 0), (0, 0, 1)).

(** What [rotate] does to one row of a table of boxes with yaw. *)
Definition rotate_row (angle : R) (r : list R) : list R :=
  alter (λ y, y - angle) 6%nat (matmul_xyz (rot_mat_T angle) r).

Definition rotated (angle : R) (b : BoxSet) : BoxSet :=
  mkBoxSet (rotate_row angle <$> tensor b) (box_dim b) (with_yaw b).

(** The arithmetic mean of a list of numbers. *)
Definition mean (l : list R) : R := foldr Rplus 0 l / INR (length l).

(** Box [i] of [b] is enveloped by its nearest BEV rectangle: the
    rectangle of [nearest_bev] holds the horizontal position of each of
    the box's corners, that is, the bounding rectangle of the rotated BEV
    rectangle of the box. *)
Definition nearest_bev_envelops (b : BoxSet) (i : nat) : Prop :=
  ∃ rect css cs,
    nearest_bev b !! i = Some rect ∧ corners b = Ok css
    ∧ css !! i = Some cs ∧ Forall (rect_contains rect) cs.

(** What [rotate] does to one row of a table of boxes without yaw: the
    centre is turned, and the horizontal sizes become the extents of the
    turned corners. *)
Definition rotate_row_noyaw (angle : R) (r : list R) : list R :=
  let r' := matmul_xyz (rot_mat_T angle) r in
  let corners_rot :=
    (λ c, vec3_matmul c (rot_mat_T angle)) <$> corners_row r' in
  <[3%nat := list_max (vx <$> corners_rot) - list_min (vx <$> corners_rot)]>
    (<[4%nat := list_max (vy <$> corners_rot) - list_min (vy <$> corners_rot)]>
       r').

Definition rotated_noyaw (angle : R) (b : BoxSet) : BoxSet :=
  mkBoxSet (rotate_row_noyaw angle <$> tensor b) (box_dim b) (with_yaw b).

(** What [rotate] and [flip] hand back for the points they were given. *)
Definition rotate_result (angle : R) (points : py_points)
    : res (option (py_points * mat3)) :=
  match points with
  | PyNone => Ok None
  | TorchTensor q =>
      Ok (Some (TorchTensor (rotate_points (rot_mat_T angle) q), rot_mat_T angle))
  | NpArray q =>
      Ok (Some (NpArray (rotate_points (rot_mat_T angle) q), rot_mat_T angle))
  | PyOther => Raise ValueError
  end.

(** Two tables have the same shape: as many rows, each as wide. *)
Definition same_shape (t t' : list (list R)) : Prop :=
  Forall2 (λ r r', length r = length r') t t'.

(** The object [b'] has the shape and the flags of [b]. *)
Definition keeps_shape (b b' : BoxSet) : Prop :=
  same_shape (tensor b) (tensor b')
  ∧ box_dim b' = box_dim b ∧ with_yaw b' = with_yaw b.

(** * Properties *)

(** ** Rows and slices *)

Lemma lookup_map_slice f s k r j :
  map_slice f s k r !! j = (λ v, if in_slice s k j then f v else v) <$> r !! j.
Proof. unfold map_slice. apply list_lookup_imap. Qed.

Lemma in_slice_0_7 j : in_slice 0 7 j = bool_decide (j mod 7 = 0)%nat.
Proof.
  unfold in_slice. rewrite Nat.sub_0_r, bool_decide_true by lia. reflexivity.
Qed.

Lemma mod7_succ j : (S j mod 7 = 1 ↔ j mod 7 = 0)%nat.
Proof.
  pose proof (Nat.div_mod_eq j 7). pose proof (Nat.div_mod_eq (S j) 7).
  pose proof (Nat.mod_upper_bound j 7). pose proof (Nat.mod_upper_bound (S j) 7).
  lia.
Qed.

Lemma in_slice_1_7 j : in_slice 1 7 j = bool_decide (j mod 7 = 1)%nat.
Proof.
  unfold in_slice. destruct j as [|j]; [reflexivity|].
  rewrite bool_decide_true by lia. cbn [andb].
  replace (S j - 1)%nat with j by lia.
  apply bool_decide_ext. symmetry. apply mod7_succ.
Qed.

Lemma lookup_flip_row k f w r j :
  in_slice k 7 6 = false →
  flip_row k f w r !! j =
    (λ v, if w && bool_decide (j = 6%nat) then f v
          else if in_slice k 7 j then - v else v) <$> r !! j.
Proof.
  intros Hk. unfold flip_row. destruct w; cbn [andb].
  - rewrite list_lookup_alter. destruct (decide (6%nat = j)) as [<-|Hne].
    + rewrite lookup_map_slice, Hk, bool_decide_true by done.
      destruct (r !! 6%nat); reflexivity.
    + rewrite lookup_map_slice, bool_decide_false by done. reflexivity.
  - apply lookup_map_slice.
Qed.

Lemma flip_row_involutive k f w r :
  in_slice k 7 6 = false → (∀ v, f (f v) = v) →
  flip_row k f w (flip_row k f w r) = r.
Proof.
  intros Hk Hf. apply list_eq. intros j.
  rewrite !lookup_flip_row by done.
  destruct (r !! j) as [v|]; [|reflexivity]. cbn [fmap option_fmap option_map].
  f_equal. destruct (w && bool_decide (j = 6%nat)); [apply Hf|].
  destruct (in_slice k 7 j); [lra | reflexivity].
Qed.

(** ** Running [flip] *)

Lemma flip_horizontal_run b p :
  flip "horizontal" p b =
    (flipped 0 (λ y, - y + PI) b,
     match p with
     | PyNone => Ok None
     | TorchTensor q => Ok (Some (TorchTensor (flip_points 0 q)))
     | NpArray q => Ok (Some (NpArray (flip_points 0 q)))
     | PyOther => Raise AssertionError
     end).
Proof.
  unfold flip, flipped, flip_row.
  change (bool_decide ("horizontal" ∈ ["horizontal"; "vertical"])) with true.
  change (bool_decide ("horizontal" = "horizontal")) with true.
  cbn [negb]. unfold bind, self, modify_rows, ret, raise.
  destruct b as [t d [|]]; destruct p; cbn;
    rewrite <- ?list_fmap_compose; reflexivity.
Qed.

Lemma flip_vertical_run b p :
  flip "vertical" p b =
    (flipped 1 (λ y, - y) b,
     match p with
     | PyNone => Ok None
     | TorchTensor q => Ok (Some (TorchTensor (flip_points 1 q)))
     | NpArray q => Ok (Some (NpArray (flip_points 1 q)))
     | PyOther => Raise AssertionError
     end).
Proof.
  unfold flip, flipped, flip_row.
  change (bool_decide ("vertical" ∈ ["horizontal"; "vertical"])) with true.
  change (bool_decide ("vertical" = "horizontal")) with false.
  change (bool_decide ("vertical" = "vertical")) with true.
  cbn [negb]. unfold bind, self, modify_rows, ret, raise.
  destruct b as [t d [|]]; destruct p; cbn;
    rewrite <- ?list_fmap_compose; reflexivity.
Qed.

Lemma flip_rejects d p b :
  d ∉ ["horizontal"; "vertical"] → flip d p b = (b, Raise AssertionError).
Proof.
  intros Hd. unfold flip. rewrite bool_decide_false by done. reflexivity.
Qed.

Lemma after_bind_ok {A B} (m : M A) (k : A → M B) b a :
  outcome m b = Ok a → bind m k b = k a (after m b).
Proof.
  unfold outcome, after, bind. destruct (m b) as [s [x|e]]; cbn; congruence.
Qed.

Lemma flipped_flipped k f b :
  in_slice k 7 6 = false → (∀ v, f (f v) = v) →
  flipped k f (flipped k f b) = b.
Proof.
  intros Hk Hf. destruct b as [t d w]. unfold flipped. cbn. f_equal.
  rewrite <- list_fmap_compose.
  rewrite <- (list_fmap_id t) at 2. apply list_fmap_ext.
  intros i r _. cbn. by apply flip_row_involutive.
Qed.

Lemma entry_flipped k f b i j :
  in_slice k 7 6 = false →
  entry (flipped k f b) i j =
    (λ v, if with_yaw b && bool_decide (j = 6%nat) then f v
          else if in_slice k 7 j then - v else v) <$> entry b i j.
Proof.
  intros Hk. unfold entry, flipped. cbn. rewrite list_lookup_fmap.
  destruct (tensor b !! i) as [r|]; [|reflexivity]. cbn.
  by apply lookup_flip_row.
Qed.

(** ** [flip]: which cells move *)

(** C1, as amended.  The strided writes [self.tensor[:, 0::7]] and
    [self.tensor[:, 1::7]] reach beyond the seven box fields: a horizontal
    flip negates the trailing columns 7, 14, ... and leaves every other
    trailing column as it was; a vertical flip negates the trailing columns
    8, 15, ... and leaves every other trailing column as it was. *)
Theorem flip_trailing_columns (b : BoxSet) (points : py_points) (i j : nat) :
  (7 ≤ j)%nat →
  entry (after (flip "horizontal" points) b) i j
    = (if bool_decide (j mod 7 = 0)%nat then Ropp <$> entry b i j
       else entry b i j)
  ∧ entry (after (flip "vertical" points) b) i j
    = (if bool_decide (j mod 7 = 1)%nat then Ropp <$> entry b i j
       else entry b i j).
Proof.
  intros Hj. unfold after.
  rewrite flip_horizontal_run, flip_vertical_run. cbn [fst].
  rewrite !entry_flipped by reflexivity.
  rewrite (bool_decide_false (j = 6%nat)) by lia.
  rewrite andb_false_r, in_slice_0_7, in_slice_1_7.
  split; destruct (entry b i j); by repeat case_bool_decide.
Qed.

(** On a row with two velocity columns, column 8 survives a horizontal
    flip and is negated by a vertical one. *)
Lemma flip_trailing_columns_witness :
  let b := mkBoxSet [[1; 2; 3; 1; 1; 1; 0; 5; 6]] 9 true in
  (7 ≤ 8)%nat
  ∧ entry (after (flip "horizontal" PyNone) b) 0 8 = Some 6
  ∧ entry (after (flip "vertical" PyNone) b) 0 8 = Some (- 6).
Proof.
  intros b.
  destruct (flip_trailing_columns b PyNone 0 8 ltac:(lia)) as [Hh Hv].
  split; [lia|]. split; [rewrite Hh | rewrite Hv]; reflexivity.
Defined.

(** C1 as stated fails on a table with velocity columns: horizontal flip
    of the row [(1, 2, 3, 1, 1, 1, 0, 5, 6)] turns the attribute in column 7
    from [5] into [-5], and vertical flip turns column 8 from [6] into
    [-6]. *)
Lemma flip_trailing_columns_counterexample :
  let b := mkBoxSet [[1; 2; 3; 1; 1; 1; 0; 5; 6]] 9 true in
  wf b
  ∧ entry b 0 7 = Some 5
  ∧ entry (after (flip "horizontal" PyNone) b) 0 7 = Some (- 5)
  ∧ entry (after (flip "horizontal" PyNone) b) 0 7 ≠ entry b 0 7
  ∧ entry b 0 8 = Some 6
  ∧ entry (after (flip "vertical" PyNone) b) 0 8 = Some (- 6)
  ∧ entry (after (flip "vertical" PyNone) b) 0 8 ≠ entry b 0 8.
Proof.
  intros b. unfold after. rewrite flip_horizontal_run, flip_vertical_run.
  cbn [fst]. rewrite !entry_flipped by reflexivity.
  repeat split.
  - cbn. lia.
  - repeat constructor.
  - cbn. intros [= H]. lra.
  - cbn. intros [= H]. lra.
Qed.

(** C5.  Flipping twice in the same direction gives back every centre and
    every yaw; the whole object is in fact as it was. *)
Theorem flip_twice_identity (b : BoxSet) :
  (let b2 := after (flip "horizontal" PyNone >> flip "horizontal" PyNone) b in
   bottom_center b2 = bottom_center b ∧ yaw b2 = yaw b)
  ∧ (let b2 := after (flip "vertical" PyNone >> flip "vertical" PyNone) b in
     bottom_center b2 = bottom_center b ∧ yaw b2 = yaw b).
Proof.
  assert (Hh : after (flip "horizontal" PyNone >> flip "horizontal" PyNone) b = b).
  { unfold after at 1.
    rewrite (after_bind_ok _ _ _ None)
      by (unfold outcome; by rewrite flip_horizontal_run).
    unfold after. rewrite !flip_horizontal_run. cbn [fst].
    apply flipped_flipped; [reflexivity | intros v; lra]. }
  assert (Hv : after (flip "vertical" PyNone >> flip "vertical" PyNone) b = b).
  { unfold after at 1.
    rewrite (after_bind_ok _ _ _ None)
      by (unfold outcome; by rewrite flip_vertical_run).
    unfold after. rewrite !flip_vertical_run. cbn [fst].
    apply flipped_flipped; [reflexivity | intros v; lra]. }
  cbv zeta. rewrite Hh, Hv. done.
Qed.

Lemma wf_row_length b i r :
  wf b → tensor b !! i = Some r → (7 ≤ length r)%nat.
Proof.
  intros [Hd Hall] Hr. rewrite Forall_lookup in Hall.
  rewrite (Hall i r Hr). exact Hd.
Qed.

(** Closed column tests are settled by evaluation. *)
Ltac eval_flags :=
  repeat match goal with
    | |- context [in_slice ?s ?k ?j] =>
        let v := eval vm_compute in (in_slice s k j) in
        change (in_slice s k j) with v
    | |- context [bool_decide (?m = ?n :> nat)] =>
        let v := eval vm_compute in (bool_decide (m = n)) in
        change (bool_decide (m = n)) with v
    end;
  cbn [andb].

Lemma cell_lookup r j v : r !! j = Some v → cell r j = v.
Proof. unfold cell. by intros ->. Qed.

Lemma cell_flip_row k f w r j :
  in_slice k 7 6 = false → (j < length r)%nat →
  cell (flip_row k f w r) j =
    if w && bool_decide (j = 6%nat) then f (cell r j)
    else if in_slice k 7 j then - cell r j else cell r j.
Proof.
  intros Hk Hj. destruct (lookup_lt_is_Some_2 r j Hj) as [v Hv].
  unfold cell at 1. rewrite lookup_flip_row, Hv by done.
  by rewrite (cell_lookup _ _ _ Hv).
Qed.

(** C8.  On boxes with yaw, horizontal flip negates column 0 and sends
    yaw to [PI - yaw]; vertical flip negates column 1 and sends yaw to
    [- yaw]; any other direction is refused with the object untouched.
    A box with yaw 0 comes out of a horizontal flip with yaw [PI] and its
    x negated. *)
Theorem flip_negates_axis_and_mirrors_yaw :
  (∀ (b : BoxSet) (points : py_points) (i : nat) (r : list R),
     wf b → with_yaw b = true → tensor b !! i = Some r →
     (∃ r', tensor (after (flip "horizontal" points) b) !! i = Some r'
            ∧ cell r' 0 = - cell r 0 ∧ cell r' 6 = PI - cell r 6)
     ∧ (∃ r', tensor (after (flip "vertical" points) b) !! i = Some r'
              ∧ cell r' 1 = - cell r 1 ∧ cell r' 6 = - cell r 6))
  ∧ (∀ (b : BoxSet) (d : string) (points : py_points),
       d ≠ "horizontal" → d ≠ "vertical" →
       flip d points b = (b, Raise AssertionError))
  ∧ (∀ x y z sx sy sz : R,
       after (flip "horizontal" PyNone)
         (mkBoxSet [[x; y; z; sx; sy; sz; 0]] 7 true)
       = mkBoxSet [[- x; y; z; sx; sy; sz; PI]] 7 true).
Proof.
  split; [|split].
  - intros b points i r Hwf Hw Hr.
    pose proof (wf_row_length _ _ _ Hwf Hr) as Hlen.
    unfold after. rewrite flip_horizontal_run, flip_vertical_run. cbn [fst].
    unfold flipped. cbn [tensor]. rewrite !list_lookup_fmap, Hr, Hw.
    cbn [fmap option_fmap option_map].
    split; eexists; (split; [reflexivity|]).
    + rewrite !cell_flip_row by (reflexivity || lia). eval_flags. split; lra.
    + rewrite !cell_flip_row by (reflexivity || lia). eval_flags. split; lra.
  - intros b d points Hh Hv. apply flip_rejects.
    rewrite !elem_of_cons, elem_of_nil. tauto.
  - intros. unfold after. rewrite flip_horizontal_run. cbn.
    cbv -[Ropp Rplus PI IZR]. repeat (f_equal; try lra).
Qed.

(** The box (1, 2, 3, 4, 5, 6, 0): flipped horizontally, and refused for
    the direction "diagonal". *)
Lemma flip_negates_axis_and_mirrors_yaw_witness :
  let b := mkBoxSet [[1; 2; 3; 4; 5; 6; 0]] 7 true in
  (∃ r', tensor (after (flip "horizontal" PyNone) b) !! 0%nat = Some r'
         ∧ cell r' 0 = - 1 ∧ cell r' 6 = PI - 0)
  ∧ flip "diagonal" PyNone b = (b, Raise AssertionError).
Proof.
  intros b.
  destruct flip_negates_axis_and_mirrors_yaw as (Hflip & Hrej & _).
  split.
  - refine (proj1 (Hflip b PyNone 0%nat [1; 2; 3; 4; 5; 6; 0] _ _ _)).
    + split; [cbn; lia | repeat constructor].
    + reflexivity.
    + reflexivity.
  - apply Hrej; discriminate.
Defined.

(** ** Running [rotate] *)

Lemma rotate_run_yaw a p b :
  with_yaw b = true →
  rotate a p b =
    (rotated a b,
     match p with
     | PyNone => Ok None
     | TorchTensor q =>
         Ok (Some (TorchTensor (rotate_points (rot_mat_T a) q), rot_mat_T a))
     | NpArray q =>
         Ok (Some (NpArray (rotate_points (rot_mat_T a) q), rot_mat_T a))
     | PyOther => Raise ValueError
     end).
Proof.
  intros Hw. unfold rotate, rotated, rotate_row.
  unfold bind, self, modify_rows, ret, raise.
  destruct b as [t d w]. cbn in Hw. subst w. cbn [with_yaw tensor box_dim].
  rewrite <- list_fmap_compose. by destruct p.
Qed.

(** The outcome of [rotate] on unsupported points, and the object it
    leaves behind, whatever the kind of boxes. *)
Lemma rotate_unsupported a b :
  after (rotate a PyOther) b = after (rotate a PyNone) b
  ∧ (outcome (rotate a PyOther) b = Raise ValueError
     ∨ (with_yaw b = false ∧ tensor b = []
        ∧ outcome (rotate a PyOther) b = Raise AssertionError)).
Proof.
  destruct (with_yaw b) eqn:Hw.
  - unfold after, outcome. rewrite !rotate_run_yaw by done. auto.
  - unfold after, outcome, rotate.
    unfold bind, self, modify_rows, set_tensor, lift, ret, raise.
    destruct b as [t d w]. cbn in Hw. subst w. cbn [with_yaw tensor box_dim].
    unfold corners. cbn [tensor]. rewrite length_fmap.
    destruct t as [|r t].
    + rewrite bool_decide_false by (cbn; lia). cbn. auto.
    + rewrite bool_decide_true by (cbn; lia). cbn [fst snd]. auto.
Qed.

(** ** [rotate] on one row *)

Lemma rotate_row_cons a x y z r :
  rotate_row a (x :: y :: z :: r) =
    (x * cos a + y * - sin a + z * 0)
    :: (x * sin a + y * cos a + z * 0)
    :: (x * 0 + y * 0 + z * 1)
    :: alter (λ v, v - a) 3%nat r.
Proof. reflexivity. Qed.

Lemma rotate_row_inverse a r :
  (3 ≤ length r)%nat → rotate_row (- a) (rotate_row a r) = r.
Proof.
  intros Hlen. destruct r as [|x [|y [|z r]]]; cbn in Hlen; try lia.
  rewrite !rotate_row_cons, cos_neg, sin_neg.
  pose proof (sin2_cos2 a) as Hsc. unfold Rsqr in Hsc.
  f_equal; [|f_equal; [|f_equal]].
  - transitivity (x * (sin a * sin a + cos a * cos a)); [ring | rewrite Hsc; ring].
  - transitivity (y * (sin a * sin a + cos a * cos a)); [ring | rewrite Hsc; ring].
  - ring.
  - rewrite list_alter_alter_eq. apply list_alter_id. intros v. cbn. ring.
Qed.

Lemma rotate_row_lookup_other a r j :
  j ≠ 0%nat → j ≠ 1%nat → j ≠ 6%nat → rotate_row a r !! j = r !! j.
Proof.
  intros H0 H1 H6. destruct r as [|x [|y [|z r]]].
  - reflexivity.
  - destruct j as [|j]; [done|]. reflexivity.
  - destruct j as [|[|j]]; try done.
  - rewrite rotate_row_cons.
    destruct j as [|[|[|j]]]; try done.
    + cbn. f_equal. ring.
    + cbn. apply list_lookup_alter_ne. lia.
Qed.

(** ** [rotate]: frame and inverse *)

(** C10.  On boxes with yaw, [rotate] writes columns 0, 1 and 6 only: the
    vertical coordinate, the three sizes and every trailing attribute
    column of every row come out as they went in, whatever the angle and
    the points passed along. *)
Theorem rotate_changes_only_x_y_yaw
    (b : BoxSet) (angle : R) (points : py_points) (i j : nat) :
  with_yaw b = true →
  j ≠ 0%nat → j ≠ 1%nat → j ≠ 6%nat →
  entry (after (rotate angle points) b) i j = entry b i j.
Proof.
  intros Hw H0 H1 H6. unfold after. rewrite rotate_run_yaw by done.
  cbn [fst]. unfold entry, rotated. cbn [tensor].
  rewrite list_lookup_fmap. destruct (tensor b !! i) as [r|]; [|reflexivity].
  cbn. by apply rotate_row_lookup_other.
Qed.

(** A row with one attribute column, rotated by [PI / 3]. *)
Lemma rotate_changes_only_x_y_yaw_witness :
  let b := mkBoxSet [[1; 2; 3; 4; 5; 6; 0; 9]] 8 true in
  entry (after (rotate (PI / 3) PyNone) b) 0 2 = Some 3
  ∧ entry (after (rotate (PI / 3) PyNone) b) 0 4 = Some 5
  ∧ entry (after (rotate (PI / 3) PyNone) b) 0 7 = Some 9.
Proof.
  intros b. split; [|split].
  - exact (rotate_changes_only_x_y_yaw b (PI / 3) PyNone 0 2
             eq_refl ltac:(lia) ltac:(lia) ltac:(lia)).
  - exact (rotate_changes_only_x_y_yaw b (PI / 3) PyNone 0 4
             eq_refl ltac:(lia) ltac:(lia) ltac:(lia)).
  - exact (rotate_changes_only_x_y_yaw b (PI / 3) PyNone 0 7
             eq_refl ltac:(lia) ltac:(lia) ltac:(lia)).
Defined.

(** C4.  On boxes with yaw, rotating by [a] and then by [-a] gives back
    every centre, in all three coordinates, and every yaw. *)
Theorem rotate_then_rotate_back (b : BoxSet) (a : R) :
  wf b → with_yaw b = true →
  let b2 := after (rotate a PyNone >> rotate (- a) PyNone) b in
  bottom_center b2 = bottom_center b ∧ yaw b2 = yaw b.
Proof.
  intros Hwf Hw.
  assert (Hid : after (rotate a PyNone >> rotate (- a) PyNone) b = b).
  { unfold after at 1.
    rewrite (after_bind_ok _ _ _ None)
      by (unfold outcome; by rewrite rotate_run_yaw).
    unfold after. rewrite (rotate_run_yaw a) by done. cbn [fst].
    rewrite rotate_run_yaw by done. cbn [fst].
    destruct b as [t d w]. unfold rotated. cbn [tensor box_dim with_yaw].
    f_equal. rewrite <- list_fmap_compose.
    rewrite <- (list_fmap_id t) at 2. apply list_fmap_ext.
    intros i r Hr. cbn. apply rotate_row_inverse.
    pose proof (wf_row_length _ _ _ Hwf Hr). lia. }
  cbv zeta. by rewrite Hid.
Qed.

(** The box (1, 2, 3, 4, 5, 6, 0), rotated by [PI / 3] and back. *)
Lemma rotate_then_rotate_back_witness :
  let b := mkBoxSet [[1; 2; 3; 4; 5; 6; 0]] 7 true in
  let b2 := after (rotate (PI / 3) PyNone >> rotate (- (PI / 3)) PyNone) b in
  bottom_center b2 = [(1, 2, 3)] ∧ yaw b2 = [0].
Proof.
  intros b.
  refine (rotate_then_rotate_back b (PI / 3) _ _).
  - split; [cbn; lia | repeat constructor].
  - reflexivity.
Defined.

(** C2, as amended.  A call with points of an unsupported kind does raise,
    [ValueError] from [rotate] and [AssertionError] from [flip], but the
    points are looked at last: the object is left exactly as the same call
    without points leaves it.  ([rotate] on an empty table of boxes without
    yaw stops earlier, at the assertion of [corners].) *)
Theorem unsupported_points_raise_after_update :
  (∀ (b : BoxSet) (angle : R),
     (∃ e, outcome (rotate angle PyOther) b = Raise e)
     ∧ (with_yaw b = true ∨ tensor b ≠ [] →
        outcome (rotate angle PyOther) b = Raise ValueError)
     ∧ after (rotate angle PyOther) b = after (rotate angle PyNone) b)
  ∧ (∀ (b : BoxSet) (d : string),
       outcome (flip d PyOther) b = Raise AssertionError
       ∧ after (flip d PyOther) b = after (flip d PyNone) b).
Proof.
  split.
  - intros b angle.
    destruct (rotate_unsupported angle b) as [Hafter [Hv | (Hw & Ht & Ha)]].
    + eauto.
    + repeat split; [eauto | | done].
      intros [Hw' | Ht']; congruence.
  - intros b d.
    destruct (decide (d = "horizontal")) as [-> | Hh];
      [| destruct (decide (d = "vertical")) as [-> | Hv]].
    + unfold outcome, after. by rewrite !flip_horizontal_run.
    + unfold outcome, after. by rewrite !flip_vertical_run.
    + unfold outcome, after. rewrite !flip_rejects; [done | |];
        rewrite !elem_of_cons, elem_of_nil; tauto.
Qed.

(** A box with yaw, rotated by [PI] along with points of an unsupported
    kind. *)
Lemma unsupported_points_raise_after_update_witness :
  let b := mkBoxSet [[1; 0; 0; 1; 1; 1; 0]] 7 true in
  outcome (rotate PI PyOther) b = Raise ValueError.
Proof.
  intros b.
  destruct unsupported_points_raise_after_update as [Hrot _].
  destruct (Hrot b PI) as (_ & Hval & _).
  apply Hval. left. reflexivity.
Defined.

(** C2 as stated fails: on the single box [(1, 0, 0, 1, 1, 1, 0)] both
    calls raise with the table already rewritten. *)
Lemma unsupported_points_counterexample :
  let b := mkBoxSet [[1; 0; 0; 1; 1; 1; 0]] 7 true in
  wf b
  ∧ outcome (flip "horizontal" PyOther) b = Raise AssertionError
  ∧ entry (after (flip "horizontal" PyOther) b) 0 0 = Some (- 1)
  ∧ tensor (after (flip "horizontal" PyOther) b) ≠ tensor b
  ∧ outcome (rotate PI PyOther) b = Raise ValueError
  ∧ entry (after (rotate PI PyOther) b) 0 0 = Some (- 1)
  ∧ tensor (after (rotate PI PyOther) b) ≠ tensor b.
Proof.
  intros b. unfold outcome, after.
  rewrite flip_horizontal_run, rotate_run_yaw by reflexivity. cbn [fst snd].
  assert (Hf : entry (flipped 0 (λ y, - y + PI) b) 0 0 = Some (- 1)).
  { rewrite entry_flipped by reflexivity. reflexivity. }
  assert (Hr : entry (rotated PI b) 0 0 = Some (- 1)).
  { unfold entry, rotated, b. cbn [tensor fmap list_fmap].
    rewrite rotate_row_cons, cos_PI, sin_PI. cbn. f_equal. lra. }
  repeat split; try done.
  - repeat constructor.
  - intros Heq. unfold entry in Hf. rewrite Heq in Hf. cbn in Hf.
    injection Hf as Hf. lra.
  - intros Heq. unfold entry in Hr. rewrite Heq in Hr. cbn in Hr.
    injection Hr as Hr. lra.
Qed.

(** ** Corners and gravity centre *)

Lemma corners_norm_eq :
  corners_norm =
    [(-0.5, -0.5, 0); (-0.5, -0.5, 1); (-0.5, 0.5, 1); (-0.5, 0.5, 0);
     (0.5, -0.5, 0); (0.5, -0.5, 1); (0.5, 0.5, 1); (0.5, 0.5, 0)].
Proof.
  unfold corners_norm, corners_norm_int, vec3_sub. cbn.
  repeat (f_equal; try lra).
Qed.

(** One corner of a box: the normalised corner [n] scaled by the sizes,
    turned by the yaw and moved to the centre. *)
Lemma corners_row_eq r :
  corners_row r =
    (λ n : vec3,
       (cell r 3 * vx n * cos (cell r 6) + cell r 4 * vy n * - sin (cell r 6)
          + cell r 5 * vz n * 0 + cell r 0,
        cell r 3 * vx n * sin (cell r 6) + cell r 4 * vy n * cos (cell r 6)
          + cell r 5 * vz n * 0 + cell r 1,
        cell r 3 * vx n * 0 + cell r 4 * vy n * 0
          + cell r 5 * vz n * 1 + cell r 2))
    <$> corners_norm.
Proof.
  unfold corners_row, rotation_3d_in_axis.
  rewrite <- !list_fmap_compose. apply list_fmap_ext.
  intros i [[nx ny] nz] _. reflexivity.
Qed.

Lemma corners_row_heights r :
  vz <$> corners_row r =
    [cell r 2; cell r 2 + cell r 5; cell r 2 + cell r 5; cell r 2;
     cell r 2; cell r 2 + cell r 5; cell r 2 + cell r 5; cell r 2].
Proof.
  rewrite corners_row_eq, corners_norm_eq. cbn [fmap list_fmap].
  unfold vx, vy, vz. cbn [fst snd].
  repeat (f_equal; try lra).
Qed.

Lemma corners_row_count r :
  cell r 5 ≠ 0 →
  length (filter (λ c, vz c = cell r 2) (corners_row r)) = 4%nat
  ∧ length (filter (λ c, vz c = cell r 2 + cell r 5) (corners_row r)) = 4%nat.
Proof.
  intros Hsz. rewrite corners_row_eq, corners_norm_eq. cbn [fmap list_fmap].
  split;
    repeat first
      [ rewrite filter_cons_True by (unfold vz; cbn; lra)
      | rewrite filter_cons_False by (unfold vz; cbn; lra) ];
    reflexivity.
Qed.

Lemma corners_nonempty b i r :
  tensor b !! i = Some r → corners b = Ok (corners_row <$> tensor b).
Proof.
  intros Hr. unfold corners. rewrite bool_decide_true; [done|].
  apply lookup_lt_Some in Hr. lia.
Qed.

(** C6.  The corners 0, 3, 4, 7 of a box sit at the stored height of its
    bottom centre and the corners 1, 2, 5, 6 at that height plus the
    vertical size, so that, the vertical size not being zero, exactly four
    corners are at each height; the mean height of the eight is the height
    of the gravity centre, the bottom height plus half the vertical size.  The
    box with centre (0,0,0), sizes (2,2,2) and yaw 0 has its corners at
    (-1 or 1, -1 or 1, 0 or 2) and its gravity centre at (0,0,1). *)
Theorem corners_heights_and_gravity_center :
  (∀ (b : BoxSet) (i : nat) (r : list R),
     tensor b !! i = Some r →
     ∃ css cs g,
       corners b = Ok css ∧ css !! i = Some cs
       ∧ vz <$> cs =
           [cell r 2; cell r 2 + cell r 5; cell r 2 + cell r 5; cell r 2;
            cell r 2; cell r 2 + cell r 5; cell r 2 + cell r 5; cell r 2]
       ∧ (cell r 5 ≠ 0 →
          length (filter (λ c, vz c = cell r 2) cs) = 4%nat
          ∧ length (filter (λ c, vz c = cell r 2 + cell r 5) cs) = 4%nat)
       ∧ gravity_center b !! i = Some g
       ∧ g = (cell r 0, cell r 1, cell r 2 + cell r 5 / 2)
       ∧ mean (vz <$> cs) = vz g)
  ∧ (let b := mkBoxSet [[0; 0; 0; 2; 2; 2; 0]] 7 true in
     corners b =
       Ok [[(-1, -1, 0); (-1, -1, 2); (-1, 1, 2); (-1, 1, 0);
            (1, -1, 0); (1, -1, 2); (1, 1, 2); (1, 1, 0)]]
     ∧ gravity_center b = [(0, 0, 1)]).
Proof.
  split.
  - intros b i r Hr.
    exists (corners_row <$> tensor b), (corners_row r),
      (cell r 0, cell r 1, cell r 2 + cell r 5 / 2).
    split; [by eapply corners_nonempty|].
    split; [by rewrite list_lookup_fmap, Hr|].
    split; [apply corners_row_heights|].
    split; [apply corners_row_count|].
    split.
    + unfold gravity_center, bottom_center.
      rewrite lookup_zip_with, list_lookup_fmap, Hr. cbn.
      f_equal. unfold get_xyz, vx, vy, vz. cbn [fst snd].
      repeat (f_equal; try lra).
    + split; [reflexivity|].
      rewrite corners_row_heights. unfold mean, vz. cbn. lra.
  - cbv zeta. split.
    + rewrite (corners_nonempty _ 0%nat [0; 0; 0; 2; 2; 2; 0]) by reflexivity.
      cbn [tensor fmap list_fmap].
      rewrite corners_row_eq, corners_norm_eq.
      cbn [fmap list_fmap]. unfold cell, vx, vy, vz. cbn.
      rewrite cos_0, sin_0.
      repeat (f_equal; try lra).
    + unfold gravity_center, bottom_center, get_xyz, cell, vx, vy, vz. cbn.
      repeat (f_equal; try lra).
Qed.

(** The box (1, 2, 3, 4, 5, 6) turned by [PI / 3]. *)
Lemma corners_heights_and_gravity_center_witness :
  let b := mkBoxSet [[1; 2; 3; 4; 5; 6; PI / 3]] 7 true in
  ∃ css cs g,
    corners b = Ok css ∧ css !! 0%nat = Some cs
    ∧ vz <$> cs = [3; 3 + 6; 3 + 6; 3; 3; 3 + 6; 3 + 6; 3]
    ∧ (6 ≠ 0 →
       length (filter (λ c, vz c = 3) cs) = 4%nat
       ∧ length (filter (λ c, vz c = 3 + 6) cs) = 4%nat)
    ∧ gravity_center b !! 0%nat = Some g
    ∧ g = (1, 2, 3 + 6 / 2)
    ∧ mean (vz <$> cs) = vz g.
Proof.
  intros b.
  exact (proj1 corners_heights_and_gravity_center b 0%nat
           [1; 2; 3; 4; 5; 6; PI / 3] eq_refl).
Defined.

(** ** [in_range_bev] *)

(** C7.  The flag of a box is true exactly when its stored centre lies
    strictly inside the range on both horizontal axes.  With the range
    [-1, -1, 1, 1] a box centred at (0.5, 0.5, 0) is in and a box centred
    at (2, 0, 0) is out. *)
Theorem in_range_bev_strict_center (b : BoxSet) (xmin ymin xmax ymax : R) :
  in_range_bev b [xmin; ymin; xmax; ymax] =
    Ok ((λ r, bool_decide (xmin < cell r 0 < xmax ∧ ymin < cell r 1 < ymax))
        <$> tensor b)
  ∧ in_range_bev
      (mkBoxSet [[0.5; 0.5; 0; 1; 1; 1; 0]; [2; 0; 0; 1; 1; 1; 0]] 7 true)
      [-1; -1; 1; 1]
    = Ok [true; false].
Proof.
  assert (Hgen : ∀ b' x0 y0 x1 y1,
    in_range_bev b' [x0; y0; x1; y1] =
      Ok ((λ r, bool_decide (x0 < cell r 0 < x1 ∧ y0 < cell r 1 < y1))
          <$> tensor b')).
  { intros b' x0 y0 x1 y1. unfold in_range_bev. cbn [lookup list_lookup].
    f_equal. apply list_fmap_ext. intros i r _.
    apply eq_true_iff_eq.
    rewrite !andb_true_iff, !bool_decide_eq_true. unfold Rgt. tauto. }
  split; [apply Hgen|].
  rewrite Hgen. cbn [tensor fmap list_fmap]. unfold cell. cbn.
  f_equal. f_equal; [|f_equal].
  - apply bool_decide_eq_true. lra.
  - apply bool_decide_eq_false. lra.
Qed.

(** ** [nearest_bev] *)

Lemma nearest_bev_row_eq r :
  nearest_bev_row (index_select [0; 1; 3; 4; 6]%nat r) =
    if bool_decide (Rabs (limit_period (cell r 6) 0.5 PI) > PI / 4)
    then [cell r 0 - cell r 4 / 2; cell r 1 - cell r 3 / 2;
          cell r 0 + cell r 4 / 2; cell r 1 + cell r 3 / 2]
    else [cell r 0 - cell r 3 / 2; cell r 1 - cell r 4 / 2;
          cell r 0 + cell r 3 / 2; cell r 1 + cell r 4 / 2].
Proof.
  unfold nearest_bev_row, index_select. cbn [fmap list_fmap].
  change (cell [cell r 0; cell r 1; cell r 3; cell r 4; cell r 6] 4)
    with (cell r 6).
  by destruct (bool_decide _).
Qed.

Lemma limit_period_quarter : limit_period (PI / 4) 0.5 PI = PI / 4.
Proof.
  unfold limit_period. pose proof PI_RGT_0.
  replace (PI / 4 / PI) with (1 / 4) by (field; lra).
  rewrite (Zfloor_eq 0) by lra. lra.
Qed.

Lemma limit_period_even (m : Z) :
  limit_period (IZR (2 * m) * (PI / 2)) 0.5 PI = 0.
Proof.
  unfold limit_period. pose proof PI_RGT_0. rewrite mult_IZR.
  replace (2 * IZR m * (PI / 2) / PI) with (IZR m) by (field; lra).
  rewrite (Zfloor_eq m) by lra. lra.
Qed.

Lemma limit_period_odd (m : Z) :
  limit_period (IZR (2 * m + 1) * (PI / 2)) 0.5 PI = - (PI / 2).
Proof.
  unfold limit_period. pose proof PI_RGT_0. rewrite plus_IZR, mult_IZR.
  replace ((2 * IZR m + 1) * (PI / 2) / PI) with (IZR m + 1 / 2)
    by (field; lra).
  rewrite (Zfloor_eq (m + 1)) by (rewrite plus_IZR; lra).
  rewrite plus_IZR. lra.
Qed.

Lemma unit_square_cases (u v : R) :
  u = 0 → Rsqr u + Rsqr v = 1 → v = 1 ∨ v = -1.
Proof.
  intros -> H. unfold Rsqr in H.
  assert (Hv : (v - 1) * (v + 1) = 0) by lra.
  apply Rmult_integral in Hv. destruct Hv; [left | right]; lra.
Qed.

Lemma trig_even (m : Z) :
  let a := IZR (2 * m) * (PI / 2) in
  sin a = 0 ∧ (cos a = 1 ∨ cos a = -1).
Proof.
  intros a. assert (Hs : sin a = 0).
  { apply sin_eq_0_1. exists m. unfold a. rewrite mult_IZR. lra. }
  split; [done|]. apply (unit_square_cases (sin a)); [done | apply sin2_cos2].
Qed.

Lemma trig_odd (m : Z) :
  let a := IZR (2 * m + 1) * (PI / 2) in
  cos a = 0 ∧ (sin a = 1 ∨ sin a = -1).
Proof.
  intros a. assert (Hc : cos a = 0).
  { apply cos_eq_0_1. exists m. unfold a. rewrite plus_IZR, mult_IZR. lra. }
  split; [done|]. apply (unit_square_cases (cos a)); [done|].
  rewrite Rplus_comm. apply sin2_cos2.
Qed.

(** At a yaw that is a whole number of quarter turns the rectangle of
    [nearest_bev_row] holds every corner of the box. *)
Lemma nearest_bev_row_envelops r (k : Z) :
  0 <= cell r 3 → 0 <= cell r 4 → cell r 6 = IZR k * (PI / 2) →
  Forall (rect_contains (nearest_bev_row (index_select [0; 1; 3; 4; 6]%nat r)))
    (corners_row r).
Proof.
  intros Hsx Hsy Hyaw. pose proof PI_RGT_0 as Hpi.
  rewrite nearest_bev_row_eq, corners_row_eq, corners_norm_eq, Hyaw.
  unfold cell in Hsx, Hsy.
  destruct (Z.Even_or_Odd k) as [[m ->] | [m ->]].
  - rewrite limit_period_even, Rabs_R0, bool_decide_false by lra.
    destruct (trig_even m) as [Hs Hc]. cbv zeta in Hs, Hc. rewrite Hs.
    cbn [fmap list_fmap]. unfold rect_contains, cell, vx, vy, vz.
    cbn [lookup list_lookup default fst snd].
    destruct Hc as [-> | ->];
      repeat (constructor; [cbn; unfold id; repeat split; lra|]); constructor.
  - rewrite limit_period_odd, Rabs_Ropp, Rabs_pos_eq, bool_decide_true by lra.
    destruct (trig_odd m) as [Hc Hs]. cbv zeta in Hs, Hc. rewrite Hc.
    cbn [fmap list_fmap]. unfold rect_contains, cell, vx, vy, vz.
    cbn [lookup list_lookup default fst snd].
    destruct Hs as [-> | ->];
      repeat (constructor; [cbn; unfold id; repeat split; lra|]); constructor.
Qed.

(** C3, as amended.  For a box with non-negative horizontal sizes whose
    yaw is a whole number of quarter turns, the rectangle of [nearest_bev]
    holds the bounding rectangle of the rotated BEV rectangle.  At other
    yaws the rectangle is only the unrotated, or width-height swapped,
    rectangle about the same centre. *)
Theorem nearest_bev_envelope_at_quarter_turns
    (b : BoxSet) (i : nat) (r : list R) (k : Z) :
  tensor b !! i = Some r →
  0 <= cell r 3 → 0 <= cell r 4 → cell r 6 = IZR k * (PI / 2) →
  nearest_bev_envelops b i.
Proof.
  intros Hr Hsx Hsy Hyaw.
  exists (nearest_bev_row (index_select [0; 1; 3; 4; 6]%nat r)),
    (corners_row <$> tensor b), (corners_row r).
  split; [by unfold nearest_bev, bev; rewrite !list_lookup_fmap, Hr|].
  split; [by eapply corners_nonempty|].
  split; [by rewrite list_lookup_fmap, Hr|].
  by eapply nearest_bev_row_envelops.
Qed.

(** A 2 by 4 box at a quarter turn. *)
Lemma nearest_bev_envelope_at_quarter_turns_witness :
  nearest_bev_envelops (mkBoxSet [[0; 0; 0; 2; 4; 2; PI / 2]] 7 true) 0.
Proof.
  refine (nearest_bev_envelope_at_quarter_turns
            (mkBoxSet [[0; 0; 0; 2; 4; 2; PI / 2]] 7 true) 0%nat
            [0; 0; 0; 2; 4; 2; PI / 2] 1%Z eq_refl _ _ _).
  - unfold cell. cbn. lra.
  - unfold cell. cbn. lra.
  - unfold cell. cbn. lra.
Defined.

(** C3 as stated fails for the box of sizes (2, 2, 2) at the origin with
    yaw [PI / 4]: [nearest_bev] answers [(-1, -1, 1, 1)], while the corner
    [x1 y0 z0] of the box lies at [x = sqrt 2]. *)
Lemma nearest_bev_envelope_counterexample :
  let b := mkBoxSet [[0; 0; 0; 2; 2; 2; PI / 4]] 7 true in
  wf b
  ∧ nearest_bev b = [[0 - 2 / 2; 0 - 2 / 2; 0 + 2 / 2; 0 + 2 / 2]]
  ∧ (∃ cs c, corners b = Ok [cs] ∧ cs !! 4%nat = Some c ∧ 1 < vx c)
  ∧ ¬ nearest_bev_envelops b 0.
Proof.
  intros b. pose proof PI_RGT_0 as Hpi.
  assert (Hn : nearest_bev b = [[0 - 2 / 2; 0 - 2 / 2; 0 + 2 / 2; 0 + 2 / 2]]).
  { unfold nearest_bev, bev, b. cbn [tensor fmap list_fmap].
    rewrite nearest_bev_row_eq.
    change (cell [0; 0; 0; 2; 2; 2; PI / 4] 6) with (PI / 4).
    rewrite limit_period_quarter, Rabs_pos_eq, bool_decide_false by lra.
    reflexivity. }
  assert (Hc : corners b = Ok [corners_row [0; 0; 0; 2; 2; 2; PI / 4]])
    by reflexivity.
  assert (Hx : ∃ c, corners_row [0; 0; 0; 2; 2; 2; PI / 4] !! 4%nat = Some c
                    ∧ 1 < vx c).
  { rewrite corners_row_eq, corners_norm_eq.
    change (cell [0; 0; 0; 2; 2; 2; PI / 4] 6) with (PI / 4).
    cbn [fmap list_fmap]. eexists. split; [reflexivity|].
    unfold cell, vx, vy, vz. cbn. rewrite cos_PI4, sin_PI4.
    assert (Hs : 0 < sqrt 2) by (apply sqrt_lt_R0; lra).
    assert (Hq : sqrt 2 * sqrt 2 = 2) by (apply sqrt_sqrt; lra).
    assert (Hi : 1 / sqrt 2 = sqrt 2 / 2) by (field_simplify_eq; lra).
    rewrite Hi. nra. }
  split; [split; [cbn; lia | repeat constructor]|].
  split; [exact Hn|].
  split.
  - destruct Hx as (c & Hc4 & Hlt). by exists (corners_row [0; 0; 0; 2; 2; 2; PI / 4]), c.
  - intros (rect & css & cs & Hrect & Hcss & Hcs & Hall).
    rewrite Hn in Hrect. rewrite Hc in Hcss.
    injection Hrect as <-. injection Hcss as <-. injection Hcs as <-.
    destruct Hx as (c & Hc4 & Hlt).
    rewrite Forall_lookup in Hall. specialize (Hall _ _ Hc4).
    unfold rect_contains, cell in Hall. cbn in Hall. lra.
Qed.

(** ** [points_in_boxes] *)

(** A point of three columns in the query frame: the first two axes are
    exchanged and the new second axis changes sign. *)
Lemma to_lidar_block_eq (pts : list (list R)) :
  Forall (λ p, length p = 3%nat) pts →
  to_lidar_block pts = Ok ((λ p, [cell p 1; - cell p 0; cell p 2]) <$> pts).
Proof.
  intros Hpts. unfold to_lidar_block.
  assert (Hsel : mapM_res select_102 pts
                 = Ok ((λ p, [cell p 1; cell p 0; cell p 2]) <$> pts)).
  { induction Hpts as [|p pts Hp _ IH]; [reflexivity|].
    cbn [mapM_res]. rewrite IH.
    destruct p as [|x [|y [|z [|? ?]]]]; try discriminate. reflexivity. }
  rewrite Hsel. f_equal. rewrite <- list_fmap_compose.
  apply list_fmap_ext. intros i p _. cbn. do 2 f_equal. lra.
Qed.

Lemma mapM_res_length {A B} (f : A → res B) l q :
  mapM_res f l = Ok q → length q = length l.
Proof.
  revert q. induction l as [|x l IH]; intros q; cbn.
  - by intros [= <-].
  - destruct (f x); [|done]. destruct (mapM_res f l) as [ys|]; [|done].
    intros [= <-]. cbn. f_equal. by apply IH.
Qed.

(** C9.  Points of shape [M x 3] or [1 x M x 3] reach the batched
    primitive as one batch of the points [(old 1, - old 0, old 2)],
    together with one batch of the boxes converted to the LIDAR frame, and
    the answer comes back with its leading dimension squeezed; a
    3-dimensional input whose leading dimension is not 1 is refused. *)
Theorem points_in_boxes_query_frame
    (Box3DMode_convert :
       BoxSet → Box3DMode → Box3DMode → option (list (list R)) → BoxSet)
    (points_in_boxes_batch :
       list (list (list R)) → list (list (list R)) → list (list (list Z)))
    (b : BoxSet) (pts : list (list R)) :
  Forall (λ p, length p = 3%nat) pts →
  let points_lidar := (λ p, [cell p 1; - cell p 0; cell p 2]) <$> pts in
  let boxes_lidar := tensor (Box3DMode_convert b DEPTH LIDAR None) in
  let answer :=
    squeeze0 (points_in_boxes_batch [points_lidar] [boxes_lidar]) in
  points_in_boxes Box3DMode_convert points_in_boxes_batch b (Pts2 pts)
    = Ok answer
  ∧ points_in_boxes Box3DMode_convert points_in_boxes_batch b (Pts3 [pts])
    = Ok answer
  ∧ (∀ x, points_in_boxes_batch [points_lidar] [boxes_lidar] = [x] →
          answer = Idx2 x)
  ∧ (∀ p3 : list (list (list R)),
       length p3 ≠ 1%nat →
       ∃ e, points_in_boxes Box3DMode_convert points_in_boxes_batch b (Pts3 p3)
            = Raise e).
Proof.
  intros Hpts points_lidar boxes_lidar answer.
  pose proof (to_lidar_block_eq pts Hpts) as Hblock.
  split; [|split; [|split]].
  - unfold points_in_boxes. by rewrite Hblock.
  - unfold points_in_boxes. cbn [mapM_res]. by rewrite Hblock.
  - intros x Hx. unfold answer. by rewrite Hx.
  - intros p3 Hlen. unfold points_in_boxes.
    destruct (mapM_res to_lidar_block p3) as [q|e] eqn:Hq; [|by exists e].
    apply mapM_res_length in Hq.
    rewrite bool_decide_false by lia. by exists AssertionError.
Qed.

(** One point, with the identity for the conversion and a primitive that
    answers box 0 for every point. *)
Lemma points_in_boxes_query_frame_witness :
  let convert := λ (b : BoxSet) (_ _ : Box3DMode)
                   (_ : option (list (list R))), b in
  let batch := λ (p b : list (list (list R))),
                 (λ blk : list (list R), (λ _, [0%Z]) <$> blk) <$> p in
  let b := mkBoxSet [[0; 0; 0; 2; 2; 2; 0]] 7 true in
  points_in_boxes convert batch b (Pts2 [[1; 2; 3]]) = Ok (Idx2 [[0%Z]])
  ∧ points_in_boxes convert batch b (Pts3 [[[1; 2; 3]]]) = Ok (Idx2 [[0%Z]]).
Proof.
  intros convert batch b.
  destruct (points_in_boxes_query_frame convert batch b [[1; 2; 3]])
    as (H2 & H3 & _).
  - repeat constructor.
  - split; [exact H2 | exact H3].
Defined.

(** * Further properties *)

(** ** [rotate] on boxes without yaw *)

Lemma zip_with_zip_fmap {A B C D} (f : A → B * C → D) (g : A → B) (h : A → C)
    (l : list A) :
  zip_with f l (zip (g <$> l) (h <$> l)) = (λ x, f x (g x, h x)) <$> l.
Proof. induction l as [|x l IH]; [reflexivity|]. cbn. by rewrite IH. Qed.

Lemma rotate_run_noyaw a p b :
  with_yaw b = false → tensor b ≠ [] →
  rotate a p b = (rotated_noyaw a b, rotate_result a p).
Proof.
  intros Hw Ht. unfold rotate, rotated_noyaw.
  unfold bind, self, modify_rows, set_tensor, lift, ret, raise.
  destruct b as [t d w]. cbn in Hw, Ht. subst w.
  cbn [with_yaw tensor box_dim]. unfold corners. cbn [tensor].
  rewrite bool_decide_true
    by (rewrite length_fmap; destruct t; [done | cbn; lia]).
  set (t' := matmul_xyz _ <$> t).
  rewrite <- !list_fmap_compose, zip_with_zip_fmap.
  unfold t'. rewrite <- list_fmap_compose.
  by destruct p.
Qed.

Lemma rotate_run_noyaw_empty a p b :
  with_yaw b = false → tensor b = [] →
  rotate a p b = (b, Raise AssertionError).
Proof.
  intros Hw Ht. destruct b as [t d w]. cbn in Hw, Ht. subst. reflexivity.
Qed.

(** ** Shapes *)

Lemma length_matmul_xyz m r : length (matmul_xyz m r) = length r.
Proof. unfold matmul_xyz, set_xyz. by rewrite !length_insert. Qed.

Lemma length_rotate_row a r : length (rotate_row a r) = length r.
Proof. unfold rotate_row. by rewrite length_alter, length_matmul_xyz. Qed.

Lemma length_rotate_row_noyaw a r : length (rotate_row_noyaw a r) = length r.
Proof.
  unfold rotate_row_noyaw. cbv zeta.
  by rewrite !length_insert, length_matmul_xyz.
Qed.

Lemma length_flip_row k f w r : length (flip_row k f w r) = length r.
Proof.
  unfold flip_row, map_slice. cbv zeta.
  destruct w; by rewrite ?length_alter, length_imap.
Qed.

Lemma same_shape_fmap (f : list R → list R) t :
  (∀ r, length (f r) = length r) → same_shape t (f <$> t).
Proof.
  intros Hf. unfold same_shape. apply Forall2_fmap_r, Forall_Forall2_diag.
  apply Forall_forall. intros r _. cbn. symmetry. apply Hf.
Qed.

Lemma same_shape_refl t : same_shape t t.
Proof. apply Forall_Forall2_diag, Forall_forall. done. Qed.

Lemma keeps_shape_wf b b' : keeps_shape b b' → wf b → wf b'.
Proof.
  intros (Hs & Hd & _) [H7 Hall]. split; [by rewrite Hd|].
  rewrite Hd. unfold same_shape in Hs.
  induction Hs as [|r r' t t' Hr _ IH]; [constructor|].
  inversion Hall; subst. constructor; [congruence | by apply IH].
Qed.

(** X1.  Whatever the arguments and whether the call returns or raises,
    [rotate] and [flip] leave the table with as many rows, each as wide as
    before, and leave [box_dim] and [with_yaw] alone; a table that was
    [N x box_dim] with [box_dim >= 7] stays so. *)
Theorem rotate_flip_keep_shape
    (b : BoxSet) (angle : R) (d : string) (points : py_points) :
  let b1 := after (rotate angle points) b in
  let b2 := after (flip d points) b in
  keeps_shape b b1 ∧ keeps_shape b b2 ∧ (wf b → wf b1 ∧ wf b2).
Proof.
  intros b1 b2.
  assert (H1 : keeps_shape b b1).
  { unfold b1, after, keeps_shape. destruct (with_yaw b) eqn:Hw.
    - rewrite rotate_run_yaw by done. cbn [fst].
      split; [|done]. apply same_shape_fmap, length_rotate_row.
    - destruct (decide (tensor b = [])) as [Ht | Ht].
      + rewrite rotate_run_noyaw_empty by done. cbn [fst].
        split; [|done]. apply same_shape_refl.
      + rewrite rotate_run_noyaw by done. cbn [fst].
        split; [|done]. apply same_shape_fmap, length_rotate_row_noyaw. }
  assert (H2 : keeps_shape b b2).
  { unfold b2, after, keeps_shape.
    destruct (decide (d = "horizontal")) as [-> | Hh];
      [| destruct (decide (d = "vertical")) as [-> | Hv]].
    - rewrite flip_horizontal_run. cbn [fst].
      split; [|done]. apply same_shape_fmap, length_flip_row.
    - rewrite flip_vertical_run. cbn [fst].
      split; [|done]. apply same_shape_fmap, length_flip_row.
    - rewrite flip_rejects
        by (rewrite !elem_of_cons, elem_of_nil; tauto).
      cbn [fst]. split; [|done]. apply same_shape_refl. }
  split; [done|]. split; [done|].
  intros Hwf. split; by eapply keeps_shape_wf.
Qed.

(** A two-box table without yaw, turned by [PI / 3] and flipped. *)
Lemma rotate_flip_keep_shape_witness :
  let b := mkBoxSet [[1; 2; 3; 4; 5; 6; 0]; [0; 0; 0; 1; 1; 1; 0]] 7 false in
  wf (after (rotate (PI / 3) PyNone) b)
  ∧ wf (after (flip "vertical" PyNone) b).
Proof.
  intros b.
  refine (proj2 (proj2 (rotate_flip_keep_shape b (PI / 3) "vertical" PyNone)) _).
  split; [cbn; lia | repeat constructor].
Defined.

(** ** Maximum and minimum of a list *)

Lemma foldl_Rmax_spec l x :
  (foldl Rmax x l = x ∨ foldl Rmax x l ∈ l)
  ∧ x <= foldl Rmax x l ∧ Forall (λ y, y <= foldl Rmax x l) l.
Proof.
  revert x. induction l as [|y l IH]; intros x; cbn [foldl].
  - split; [by left|]. split; [lra | constructor].
  - destruct (IH (Rmax x y)) as (Hin & Hge & Hall).
    pose proof (Rmax_l x y). pose proof (Rmax_r x y).
    split; [|split; [lra | constructor; [lra | done]]].
    destruct Hin as [Heq | Hin]; [|right; by constructor].
    rewrite Heq. destruct (Rle_dec x y).
    + rewrite Rmax_right by lra. right. constructor.
    + rewrite Rmax_left by lra. by left.
Qed.

Lemma foldl_Rmin_spec l x :
  (foldl Rmin x l = x ∨ foldl Rmin x l ∈ l)
  ∧ foldl Rmin x l <= x ∧ Forall (λ y, foldl Rmin x l <= y) l.
Proof.
  revert x. induction l as [|y l IH]; intros x; cbn [foldl].
  - split; [by left|]. split; [lra | constructor].
  - destruct (IH (Rmin x y)) as (Hin & Hge & Hall).
    pose proof (Rmin_l x y). pose proof (Rmin_r x y).
    split; [|split; [lra | constructor; [lra | done]]].
    destruct Hin as [Heq | Hin]; [|right; by constructor].
    rewrite Heq. destruct (Rle_dec x y).
    + rewrite Rmin_left by lra. by left.
    + rewrite Rmin_right by lra. right. constructor.
Qed.

Lemma list_max_unique l m :
  m ∈ l → Forall (λ y, y <= m) l → list_max l = m.
Proof.
  intros Hin Hall. destruct l as [|x l]; [by apply elem_of_nil in Hin|].
  unfold list_max. destruct (foldl_Rmax_spec l x) as (Hmem & Hge & Hub).
  apply Rle_antisym.
  - rewrite Forall_forall in Hall. apply Hall.
    destruct Hmem as [-> | Hmem]; [constructor | by constructor].
  - apply elem_of_cons in Hin as [-> | Hin]; [done|].
    rewrite Forall_forall in Hub. by apply Hub.
Qed.

Lemma list_min_unique l m :
  m ∈ l → Forall (λ y, m <= y) l → list_min l = m.
Proof.
  intros Hin Hall. destruct l as [|x l]; [by apply elem_of_nil in Hin|].
  unfold list_min. destruct (foldl_Rmin_spec l x) as (Hmem & Hge & Hub).
  apply Rle_antisym.
  - apply elem_of_cons in Hin as [-> | Hin]; [done|].
    rewrite Forall_forall in Hub. by apply Hub.
  - rewrite Forall_forall in Hall. apply Hall.
    destruct Hmem as [-> | Hmem]; [constructor | by constructor].
Qed.

(** The extent, along one axis, of the eight corners of a centred box
    whose two horizontal half-axes project to [p / 2] and [q / 2]. *)
Lemma corners_extent (A p q : R) :
  let l := (λ n : vec3, A + vx n * p + vy n * q) <$> corners_norm in
  list_max l - list_min l = Rabs p + Rabs q.
Proof.
  cbv zeta. rewrite corners_norm_eq. cbn [fmap list_fmap].
  unfold vx, vy. cbn [fst snd].
  match goal with |- list_max ?l0 - _ = _ => set (l := l0) end.
  assert (Hmax : list_max l = A + Rabs p / 2 + Rabs q / 2).
  { apply list_max_unique; unfold l.
    - rewrite !elem_of_cons. unfold Rabs.
      destruct (Rcase_abs p), (Rcase_abs q);
        repeat first [left; lra | right].
    - unfold Rabs. destruct (Rcase_abs p), (Rcase_abs q);
        repeat (constructor; [lra|]); constructor. }
  assert (Hmin : list_min l = A - Rabs p / 2 - Rabs q / 2).
  { apply list_min_unique; unfold l.
    - rewrite !elem_of_cons. unfold Rabs.
      destruct (Rcase_abs p), (Rcase_abs q);
        repeat first [left; lra | right].
    - unfold Rabs. destruct (Rcase_abs p), (Rcase_abs q);
        repeat (constructor; [lra|]); constructor. }
  rewrite Hmax, Hmin. lra.
Qed.

Lemma corners_rot_xs a (r : list R) :
  vx <$> ((λ c, vec3_matmul c (rot_mat_T a)) <$> corners_row r) =
    (λ n : vec3,
       (cell r 0 * cos a - cell r 1 * sin a)
       + vx n * (cell r 3 * cos (cell r 6 + a))
       + vy n * - (cell r 4 * sin (cell r 6 + a)))
    <$> corners_norm.
Proof.
  rewrite corners_row_eq, <- !list_fmap_compose. apply list_fmap_ext.
  intros i [[nx ny] nz] _. cbn. unfold vx, vy, vz. cbn [fst snd].
  rewrite cos_plus, sin_plus. ring.
Qed.

Lemma corners_rot_ys a (r : list R) :
  vy <$> ((λ c, vec3_matmul c (rot_mat_T a)) <$> corners_row r) =
    (λ n : vec3,
       (cell r 0 * sin a + cell r 1 * cos a)
       + vx n * (cell r 3 * sin (cell r 6 + a))
       + vy n * (cell r 4 * cos (cell r 6 + a)))
    <$> corners_norm.
Proof.
  rewrite corners_row_eq, <- !list_fmap_compose. apply list_fmap_ext.
  intros i [[nx ny] nz] _. cbn. unfold vx, vy, vz. cbn [fst snd].
  rewrite cos_plus, sin_plus. ring.
Qed.

Lemma matmul_xyz_lookup_high m r j :
  (3 ≤ j)%nat → matmul_xyz m r !! j = r !! j.
Proof.
  intros Hj. unfold matmul_xyz, set_xyz.
  by rewrite !list_lookup_insert_ne by lia.
Qed.

Lemma cell_matmul_xyz_high m r j :
  (3 ≤ j)%nat → cell (matmul_xyz m r) j = cell r j.
Proof. intros Hj. unfold cell. by rewrite matmul_xyz_lookup_high. Qed.

Lemma rotate_row_noyaw_sizes a r :
  (5 ≤ length r)%nat →
  cell (rotate_row_noyaw a r) 3
    = Rabs (cell r 3 * cos (cell r 6 + a)) + Rabs (cell r 4 * sin (cell r 6 + a))
  ∧ cell (rotate_row_noyaw a r) 4
    = Rabs (cell r 3 * sin (cell r 6 + a)) + Rabs (cell r 4 * cos (cell r 6 + a)).
Proof.
  intros Hlen. unfold rotate_row_noyaw. cbv zeta.
  rewrite corners_rot_xs, corners_rot_ys.
  rewrite (cell_matmul_xyz_high _ _ 3), (cell_matmul_xyz_high _ _ 4),
    (cell_matmul_xyz_high _ _ 6) by lia.
  rewrite !corners_extent, Rabs_Ropp.
  unfold cell. split.
  - rewrite list_lookup_insert_eq; [done|].
    rewrite length_insert, length_matmul_xyz. lia.
  - rewrite list_lookup_insert_ne by lia.
    rewrite list_lookup_insert_eq; [done|].
    rewrite length_matmul_xyz. lia.
Qed.

(** ** [rotate]: composition, zero angle, distances *)

Lemma rotate_row_compose a c r :
  (3 ≤ length r)%nat → rotate_row c (rotate_row a r) = rotate_row (a + c) r.
Proof.
  intros Hlen. destruct r as [|x [|y [|z r]]]; cbn in Hlen; try lia.
  rewrite !rotate_row_cons, cos_plus, sin_plus.
  f_equal; [ring | f_equal; [ring | f_equal; [ring|]]].
  rewrite list_alter_alter_eq. apply list_alter_ext; [|done].
  intros v _. cbn. ring.
Qed.

Lemma rotate_row_zero r : (3 ≤ length r)%nat → rotate_row 0 r = r.
Proof.
  intros Hlen. destruct r as [|x [|y [|z r]]]; cbn in Hlen; try lia.
  rewrite rotate_row_cons, cos_0, sin_0.
  f_equal; [ring | f_equal; [ring | f_equal; [ring|]]].
  apply list_alter_id. intros v. ring.
Qed.

Lemma fmap_rows_id (f : list R → list R) (b : BoxSet) :
  wf b → (∀ r, (3 ≤ length r)%nat → f r = r) → f <$> tensor b = tensor b.
Proof.
  intros Hwf Hf. rewrite <- (list_fmap_id (tensor b)) at 2.
  apply list_fmap_ext. intros i r Hr. cbn. apply Hf.
  pose proof (wf_row_length _ _ _ Hwf Hr). lia.
Qed.

(** X2.  On boxes with yaw, a rotation by [a] followed by a rotation by
    [c] leaves the object exactly as one rotation by [a + c] does. *)
Theorem rotate_composes (b : BoxSet) (a c : R) :
  wf b → with_yaw b = true →
  after (rotate a PyNone >> rotate c PyNone) b
  = after (rotate (a + c) PyNone) b.
Proof.
  intros Hwf Hw. unfold after at 1.
  rewrite (after_bind_ok _ _ _ None)
    by (unfold outcome; by rewrite rotate_run_yaw).
  unfold after. rewrite (rotate_run_yaw a) by done. cbn [fst].
  rewrite !rotate_run_yaw by done. cbn [fst].
  unfold rotated. cbn [tensor box_dim with_yaw]. f_equal.
  rewrite <- list_fmap_compose. apply list_fmap_ext.
  intros i r Hr. cbn. apply rotate_row_compose.
  pose proof (wf_row_length _ _ _ Hwf Hr). lia.
Qed.

(** The box (1, 2, 3, 4, 5, 6, 0), turned by [PI / 3] and then [PI / 6]. *)
Lemma rotate_composes_witness :
  let b := mkBoxSet [[1; 2; 3; 4; 5; 6; 0]] 7 true in
  after (rotate (PI / 3) PyNone >> rotate (PI / 6) PyNone) b
  = after (rotate (PI / 3 + PI / 6) PyNone) b.
Proof.
  intros b. refine (rotate_composes b (PI / 3) (PI / 6) _ _).
  - split; [cbn; lia | repeat constructor].
  - reflexivity.
Defined.

(** X3.  On boxes with yaw, a rotation by the angle 0 changes nothing and
    hands the points back as they were given. *)
Theorem rotate_zero_identity (b : BoxSet) (p : list (list R)) :
  wf b → with_yaw b = true →
  Forall (λ q, (3 ≤ length q)%nat) p →
  rotate 0 PyNone b = (b, Ok None)
  ∧ rotate 0 (TorchTensor p) b = (b, Ok (Some (TorchTensor p, rot_mat_T 0)))
  ∧ rotate 0 (NpArray p) b = (b, Ok (Some (NpArray p, rot_mat_T 0))).
Proof.
  intros Hwf Hw Hp.
  assert (Hb : rotated 0 b = b).
  { destruct b as [t d w]. unfold rotated. cbn [tensor box_dim with_yaw].
    f_equal. apply (fmap_rows_id _ (mkBoxSet t d w) Hwf).
    apply rotate_row_zero. }
  assert (Hpts : rotate_points (rot_mat_T 0) p = p).
  { unfold rotate_points. rewrite <- (list_fmap_id p) at 2.
    apply list_fmap_ext. intros i q Hq. cbn.
    rewrite Forall_lookup in Hp. specialize (Hp _ _ Hq).
    destruct q as [|x [|y [|z q]]]; cbn in Hp; try lia.
    unfold matmul_xyz, rot_mat_T. cbn. rewrite cos_0, sin_0.
    f_equal; [ring | f_equal; [ring | f_equal; ring]]. }
  rewrite !rotate_run_yaw by done. rewrite Hb, Hpts. done.
Qed.

(** One box and one point, turned by 0. *)
Lemma rotate_zero_identity_witness :
  let b := mkBoxSet [[1; 2; 3; 4; 5; 6; 0]] 7 true in
  rotate 0 PyNone b = (b, Ok None).
Proof.
  intros b. refine (proj1 (rotate_zero_identity b [[1; 1; 1]] _ _ _)).
  - split; [cbn; lia | repeat constructor].
  - reflexivity.
  - repeat constructor.
Defined.

Lemma matmul_xyz_low a r :
  (3 ≤ length r)%nat →
  cell (matmul_xyz (rot_mat_T a) r) 0 = cell r 0 * cos a - cell r 1 * sin a
  ∧ cell (matmul_xyz (rot_mat_T a) r) 1 = cell r 0 * sin a + cell r 1 * cos a
  ∧ cell (matmul_xyz (rot_mat_T a) r) 2 = cell r 2.
Proof.
  intros Hlen. destruct r as [|x [|y [|z r]]]; cbn in Hlen; try lia.
  unfold matmul_xyz, rot_mat_T, cell. cbn. repeat split; ring.
Qed.

Lemma rotate_row_low a r j :
  (j < 3)%nat → cell (rotate_row a r) j = cell (matmul_xyz (rot_mat_T a) r) j.
Proof.
  intros Hj. unfold rotate_row, cell.
  by rewrite list_lookup_alter_ne by lia.
Qed.

Lemma rotate_row_noyaw_low a r j :
  (j < 3)%nat →
  cell (rotate_row_noyaw a r) j = cell (matmul_xyz (rot_mat_T a) r) j.
Proof.
  intros Hj. unfold rotate_row_noyaw, cell. cbv zeta.
  by rewrite !list_lookup_insert_ne by lia.
Qed.

(** X4.  Whether the boxes have yaw or not, [rotate] keeps every centre at
    its distance from the vertical axis and at its height: it turns the
    centres about that axis. *)
Theorem rotate_preserves_radius_and_height
    (b : BoxSet) (a : R) (p : py_points) (i : nat) (r : list R) :
  wf b → tensor b !! i = Some r →
  ∃ r', tensor (after (rotate a p) b) !! i = Some r'
        ∧ cell r' 0 * cell r' 0 + cell r' 1 * cell r' 1
          = cell r 0 * cell r 0 + cell r 1 * cell r 1
        ∧ cell r' 2 = cell r 2.
Proof.
  intros Hwf Hr. pose proof (wf_row_length _ _ _ Hwf Hr) as Hlen.
  destruct (matmul_xyz_low a r) as (H0 & H1 & H2); [lia|].
  pose proof (sin2_cos2 a) as Hsc. unfold Rsqr in Hsc.
  assert (Hnorm :
    (cell r 0 * cos a - cell r 1 * sin a) * (cell r 0 * cos a - cell r 1 * sin a)
    + (cell r 0 * sin a + cell r 1 * cos a) * (cell r 0 * sin a + cell r 1 * cos a)
    = cell r 0 * cell r 0 + cell r 1 * cell r 1).
  { transitivity ((cell r 0 * cell r 0 + cell r 1 * cell r 1)
                  * (sin a * sin a + cos a * cos a)); [ring|].
    rewrite Hsc. ring. }
  unfold after. destruct (with_yaw b) eqn:Hw.
  - rewrite rotate_run_yaw by done. cbn [fst]. unfold rotated. cbn [tensor].
    exists (rotate_row a r). rewrite list_lookup_fmap, Hr.
    split; [done|]. rewrite !rotate_row_low by lia.
    rewrite H0, H1, H2. done.
  - rewrite rotate_run_noyaw by (done || by intros Ht; rewrite Ht in Hr).
    cbn [fst]. unfold rotated_noyaw. cbn [tensor].
    exists (rotate_row_noyaw a r). rewrite list_lookup_fmap, Hr.
    split; [done|]. rewrite !rotate_row_noyaw_low by lia.
    rewrite H0, H1, H2. done.
Qed.

(** The centre (3, 4, 5) stays at distance 5 from the vertical axis. *)
Lemma rotate_preserves_radius_and_height_witness :
  let b := mkBoxSet [[3; 4; 5; 1; 1; 1; 0]] 7 false in
  ∃ r', tensor (after (rotate (PI / 3) PyNone) b) !! 0%nat = Some r'
        ∧ cell r' 0 * cell r' 0 + cell r' 1 * cell r' 1 = 3 * 3 + 4 * 4
        ∧ cell r' 2 = 5.
Proof.
  intros b.
  refine (rotate_preserves_radius_and_height b (PI / 3) PyNone 0%nat
            [3; 4; 5; 1; 1; 1; 0] _ eq_refl).
  split; [cbn; lia | repeat constructor].
Defined.

(** ** [rotate] on boxes without yaw: frame, sizes, empty table *)

Lemma matmul_xyz_lookup_other a r j :
  j ≠ 0%nat → j ≠ 1%nat → matmul_xyz (rot_mat_T a) r !! j = r !! j.
Proof.
  intros H0 H1. destruct (decide (j = 6%nat)) as [-> | H6].
  - apply matmul_xyz_lookup_high. lia.
  - rewrite <- (rotate_row_lookup_other a r j) by done.
    unfold rotate_row. by rewrite list_lookup_alter_ne.
Qed.

Lemma rotate_row_noyaw_lookup_other a r j :
  j ≠ 0%nat → j ≠ 1%nat → j ≠ 3%nat → j ≠ 4%nat →
  rotate_row_noyaw a r !! j = r !! j.
Proof.
  intros H0 H1 H3 H4. unfold rotate_row_noyaw. cbv zeta.
  rewrite !list_lookup_insert_ne by done.
  by apply matmul_xyz_lookup_other.
Qed.

(** X5.  On boxes without yaw, [rotate] writes columns 0, 1, 3 and 4 only:
    the height of the centre, the vertical size, the stored yaw and every
    trailing column come out as they went in. *)
Theorem rotate_noyaw_changes_only_xy_and_sizes
    (b : BoxSet) (angle : R) (points : py_points) (i j : nat) :
  with_yaw b = false →
  j ≠ 0%nat → j ≠ 1%nat → j ≠ 3%nat → j ≠ 4%nat →
  entry (after (rotate angle points) b) i j = entry b i j.
Proof.
  intros Hw H0 H1 H3 H4. unfold after.
  destruct (decide (tensor b = [])) as [Ht | Ht].
  - by rewrite rotate_run_noyaw_empty.
  - rewrite rotate_run_noyaw by done. cbn [fst].
    unfold entry, rotated_noyaw. cbn [tensor]. rewrite list_lookup_fmap.
    destruct (tensor b !! i) as [r|]; [|reflexivity].
    cbn. by apply rotate_row_noyaw_lookup_other.
Qed.

(** A row with one attribute column, turned by [PI / 3]. *)
Lemma rotate_noyaw_changes_only_xy_and_sizes_witness :
  let b := mkBoxSet [[1; 2; 3; 4; 5; 6; 0; 9]] 8 false in
  entry (after (rotate (PI / 3) PyNone) b) 0 2 = Some 3
  ∧ entry (after (rotate (PI / 3) PyNone) b) 0 7 = Some 9.
Proof.
  intros b. split.
  - exact (rotate_noyaw_changes_only_xy_and_sizes b (PI / 3) PyNone 0 2
             eq_refl ltac:(lia) ltac:(lia) ltac:(lia) ltac:(lia)).
  - exact (rotate_noyaw_changes_only_xy_and_sizes b (PI / 3) PyNone 0 7
             eq_refl ltac:(lia) ltac:(lia) ltac:(lia) ltac:(lia)).
Defined.

Lemma rotate_noyaw_lookup b angle points i r :
  with_yaw b = false → tensor b !! i = Some r →
  tensor (after (rotate angle points) b) !! i
  = Some (rotate_row_noyaw angle r).
Proof.
  intros Hw Hr. unfold after.
  rewrite rotate_run_noyaw by (done || by intros Ht; rewrite Ht in Hr).
  cbn [fst]. unfold rotated_noyaw. cbn [tensor].
  by rewrite list_lookup_fmap, Hr.
Qed.



(** X7.  For an axis-aligned box (stored yaw 0, sizes not negative) in a
    table without yaw, a rotation by 0 or by a half turn gives back the
    horizontal sizes and a rotation by a quarter turn exchanges them. *)
Theorem rotate_noyaw_right_angles
    (b : BoxSet) (points : py_points) (i : nat) (r : list R) :
  wf b → with_yaw b = false → tensor b !! i = Some r →
  cell r 6 = 0 → 0 <= cell r 3 → 0 <= cell r 4 →
  (∃ r', tensor (after (rotate 0 points) b) !! i = Some r'
         ∧ cell r' 3 = cell r 3 ∧ cell r' 4 = cell r 4)
  ∧ (∃ r', tensor (after (rotate (PI / 2) points) b) !! i = Some r'
           ∧ cell r' 3 = cell r 4 ∧ cell r' 4 = cell r 3)
  ∧ (∃ r', tensor (after (rotate PI points) b) !! i = Some r'
           ∧ cell r' 3 = cell r 3 ∧ cell r' 4 = cell r 4).
Proof.
  intros Hwf Hw Hr Hyaw Hsx Hsy.
  pose proof (wf_row_length _ _ _ Hwf Hr) as Hlen.
  assert (Hat : ∀ a,
    ∃ r', tensor (after (rotate a points) b) !! i = Some r'
          ∧ cell r' 3 = Rabs (cell r 3 * cos a) + Rabs (cell r 4 * sin a)
          ∧ cell r' 4 = Rabs (cell r 3 * sin a) + Rabs (cell r 4 * cos a)).
  { intros a. exists (rotate_row_noyaw a r).
    split; [by apply rotate_noyaw_lookup|].
    destruct (rotate_row_noyaw_sizes a r) as [H3 H4]; [lia|].
    by rewrite H3, H4, Hyaw, Rplus_0_l. }
  split; [|split].
  - destruct (Hat 0) as (r' & Hr' & H3 & H4).
    exists r'. split; [done|]. rewrite H3, H4, cos_0, sin_0.
    rewrite !Rmult_0_r, !Rmult_1_r, Rabs_R0, !Rabs_pos_eq by done.
    split; lra.
  - destruct (Hat (PI / 2)) as (r' & Hr' & H3 & H4).
    exists r'. split; [done|]. rewrite H3, H4, cos_PI2, sin_PI2.
    rewrite !Rmult_0_r, !Rmult_1_r, Rabs_R0, !Rabs_pos_eq by done.
    split; lra.
  - destruct (Hat PI) as (r' & Hr' & H3 & H4).
    exists r'. split; [done|]. rewrite H3, H4, cos_PI, sin_PI.
    rewrite !Rmult_0_r, Rabs_R0.
    replace (cell r 3 * -1) with (- cell r 3) by ring.
    replace (cell r 4 * -1) with (- cell r 4) by ring.
    rewrite !Rabs_Ropp, !Rabs_pos_eq by done.
    split; lra.
Qed.

(** A 2 by 4 box turned by a quarter turn becomes 4 by 2. *)
Lemma rotate_noyaw_right_angles_witness :
  let b := mkBoxSet [[0; 0; 0; 2; 4; 1; 0]] 7 false in
  ∃ r', tensor (after (rotate (PI / 2) PyNone) b) !! 0%nat = Some r'
        ∧ cell r' 3 = 4 ∧ cell r' 4 = 2.
Proof.
  intros b.
  refine (proj1 (proj2 (rotate_noyaw_right_angles b PyNone 0%nat
                          [0; 0; 0; 2; 4; 1; 0] _ eq_refl eq_refl eq_refl _ _))).
  - split; [cbn; lia | repeat constructor].
  - unfold cell. cbn. lra.
  - unfold cell. cbn. lra.
Defined.



(** ** [flip]: frame, composition, derived views *)

Lemma cell_flip_row_other k f w r j :
  in_slice k 7 6 = false → j ≠ 6%nat ∨ w = false →
  cell (flip_row k f w r) j = if in_slice k 7 j then - cell r j else cell r j.
Proof.
  intros Hk Hj. unfold cell. rewrite lookup_flip_row by done.
  assert (Hw : w && bool_decide (j = 6%nat) = false).
  { destruct Hj as [Hj | ->]; [|done].
    rewrite bool_decide_false by done. apply andb_false_r. }
  rewrite Hw. destruct (r !! j), (in_slice k 7 j); cbn; lra.
Qed.

(** X9.  On boxes without yaw [flip] never writes the yaw column, and on
    any boxes it leaves the height of the centre and the three sizes
    alone, whatever the direction and the points. *)
Theorem flip_leaves_height_sizes_and_unused_yaw
    (b : BoxSet) (d : string) (points : py_points) (i j : nat) :
  (2 ≤ j ≤ 5)%nat ∨ (j = 6%nat ∧ with_yaw b = false) →
  entry (after (flip d points) b) i j = entry b i j.
Proof.
  intros Hj. unfold after.
  assert (Hrow : ∀ k f, in_slice k 7 6 = false → in_slice k 7 j = false →
            entry (flipped k f b) i j = entry b i j).
  { intros k f Hk Hkj. rewrite entry_flipped, Hkj by done.
    assert (Hw : with_yaw b && bool_decide (j = 6%nat) = false).
    { destruct Hj as [Hj | [-> ->]]; [|done].
      rewrite bool_decide_false by lia. apply andb_false_r. }
    rewrite Hw. by destruct (entry b i j). }
  assert (H0 : in_slice 0 7 j = false).
  { rewrite in_slice_0_7. apply bool_decide_false.
    destruct Hj as [Hj | [-> _]]; [|done].
    destruct j as [|[|[|[|[|[|j]]]]]]; cbn; lia. }
  assert (H1 : in_slice 1 7 j = false).
  { rewrite in_slice_1_7. apply bool_decide_false.
    destruct Hj as [Hj | [-> _]]; [|done].
    destruct j as [|[|[|[|[|[|j]]]]]]; cbn; lia. }
  destruct (decide (d = "horizontal")) as [-> | Hh];
    [| destruct (decide (d = "vertical")) as [-> | Hv]].
  - rewrite flip_horizontal_run. cbn [fst]. by apply Hrow.
  - rewrite flip_vertical_run. cbn [fst]. by apply Hrow.
  - by rewrite flip_rejects
      by (rewrite !elem_of_cons, elem_of_nil; tauto).
Qed.

(** A box without yaw keeps its stored yaw under a horizontal flip. *)
Lemma flip_leaves_height_sizes_and_unused_yaw_witness :
  let b := mkBoxSet [[1; 2; 3; 4; 5; 6; 0]] 7 false in
  entry (after (flip "horizontal" PyNone) b) 0 6 = entry b 0 6.
Proof.
  intros b.
  exact (flip_leaves_height_sizes_and_unused_yaw b "horizontal" PyNone 0 6
           (or_intror (conj eq_refl eq_refl))).
Defined.

Lemma flip_flip_rotate_row (r : list R) :
  length r = 7%nat →
  flip_row 1 (λ y, - y) true (flip_row 0 (λ y, - y + PI) true r)
  = rotate_row PI r.
Proof.
  intros Hlen.
  destruct r as [|x [|y [|z [|sx [|sy [|sz [|w [|? ?]]]]]]]]; try discriminate.
  rewrite rotate_row_cons, cos_PI, sin_PI.
  cbv -[Ropp Rplus Rminus Rmult PI IZR].
  repeat (f_equal; try lra).
Qed.

(** X10.  On a table of exactly seven columns with yaw, a horizontal flip
    followed by a vertical flip is the rotation by a half turn: both send
    [(x, y, yaw)] to [(-x, -y, yaw - PI)]. *)
Theorem flip_both_ways_is_half_turn (b : BoxSet) :
  wf b → box_dim b = 7%nat → with_yaw b = true →
  after (flip "horizontal" PyNone >> flip "vertical" PyNone) b
  = after (rotate PI PyNone) b.
Proof.
  intros Hwf Hd Hw. unfold after at 1.
  rewrite (after_bind_ok _ _ _ None)
    by (unfold outcome; by rewrite flip_horizontal_run).
  unfold after. rewrite flip_horizontal_run, flip_vertical_run. cbn [fst].
  rewrite rotate_run_yaw by done. cbn [fst].
  unfold flipped, rotated. cbn [tensor box_dim with_yaw]. rewrite Hw.
  f_equal. rewrite <- list_fmap_compose. apply list_fmap_ext.
  intros i r Hr. cbn. apply flip_flip_rotate_row.
  destruct Hwf as [_ Hall]. rewrite Forall_lookup in Hall.
  by rewrite (Hall _ _ Hr).
Qed.

(** The box (1, 2, 3, 4, 5, 6, 0). *)
Lemma flip_both_ways_is_half_turn_witness :
  let b := mkBoxSet [[1; 2; 3; 4; 5; 6; 0]] 7 true in
  after (flip "horizontal" PyNone >> flip "vertical" PyNone) b
  = after (rotate PI PyNone) b.
Proof.
  intros b. refine (flip_both_ways_is_half_turn b _ eq_refl eq_refl).
  split; [cbn; lia | repeat constructor].
Defined.

Lemma after_flip_h_v b :
  after (flip "horizontal" PyNone >> flip "vertical" PyNone) b
  = flipped 1 (λ y, - y) (flipped 0 (λ y, - y + PI) b).
Proof.
  unfold after at 1.
  rewrite (after_bind_ok _ _ _ None)
    by (unfold outcome; by rewrite flip_horizontal_run).
  unfold after. by rewrite flip_horizontal_run, flip_vertical_run.
Qed.

Lemma after_flip_v_h b :
  after (flip "vertical" PyNone >> flip "horizontal" PyNone) b
  = flipped 0 (λ y, - y + PI) (flipped 1 (λ y, - y) b).
Proof.
  unfold after at 1.
  rewrite (after_bind_ok _ _ _ None)
    by (unfold outcome; by rewrite flip_vertical_run).
  unfold after. by rewrite flip_vertical_run, flip_horizontal_run.
Qed.

(** X11.  The two flips commute on every column but the yaw: horizontal
    then vertical leaves the yaw at [yaw - PI], vertical then horizontal
    at [yaw + PI], a full turn apart.  On boxes without yaw the two orders
    give the same object. *)
Theorem flips_commute_up_to_a_full_turn (b : BoxSet) (i : nat) :
  let hv := after (flip "horizontal" PyNone >> flip "vertical" PyNone) b in
  let vh := after (flip "vertical" PyNone >> flip "horizontal" PyNone) b in
  (∀ j, j ≠ 6%nat → entry hv i j = entry vh i j)
  ∧ (with_yaw b = true →
     entry hv i 6 = (λ y, y - PI) <$> entry b i 6
     ∧ entry vh i 6 = (λ y, y + PI) <$> entry b i 6)
  ∧ (with_yaw b = false → hv = vh).
Proof.
  intros hv vh. unfold hv, vh. rewrite after_flip_h_v, after_flip_v_h.
  assert (Hw : ∀ k f, with_yaw (flipped k f b) = with_yaw b) by done.
  split; [|split].
  - intros j Hj. rewrite !entry_flipped, !Hw by reflexivity.
    rewrite (bool_decide_false (j = 6%nat)), andb_false_r by done.
    destruct (entry b i j) as [v|]; [|reflexivity]. cbn. f_equal.
    destruct (in_slice 1 7 j), (in_slice 0 7 j); lra.
  - intros Hy. rewrite !entry_flipped, !Hw, Hy by reflexivity.
    cbn [andb]. rewrite bool_decide_true by done.
    destruct (entry b i 6) as [v|]; [|done]. cbn. split; f_equal; lra.
  - intros Hn. destruct b as [t d w]. cbn in Hn. subst w.
    unfold flipped. cbn [tensor box_dim with_yaw]. f_equal.
    rewrite <- !list_fmap_compose. apply list_fmap_ext.
    intros k r _. unfold compose. apply list_eq. intros j.
    rewrite !lookup_flip_row by reflexivity. cbn [andb].
    destruct (r !! j) as [v|]; [|reflexivity].
    cbn. f_equal. destruct (in_slice 1 7 j), (in_slice 0 7 j); lra.
Qed.

(** A box with yaw 0: the two orders end at [-PI] and at [PI]. *)
Lemma flips_commute_up_to_a_full_turn_witness :
  let b := mkBoxSet [[1; 2; 3; 4; 5; 6; 0]] 7 true in
  entry (after (flip "horizontal" PyNone >> flip "vertical" PyNone) b) 0 6
  = Some (0 - PI)
  ∧ entry (after (flip "vertical" PyNone >> flip "horizontal" PyNone) b) 0 6
    = Some (0 + PI).
Proof.
  intros b.
  exact (proj1 (proj2 (flips_commute_up_to_a_full_turn b 0)) eq_refl).
Defined.

(** ** Gravity centre and corners *)

Lemma gravity_center_rows b :
  gravity_center b
  = (λ r, (cell r 0, cell r 1, cell r 2 + cell r 5 * 0.5)) <$> tensor b.
Proof.
  unfold gravity_center, bottom_center.
  induction (tensor b) as [|r t IH]; [reflexivity|].
  cbn [fmap list_fmap zip_with]. cbn [fmap list_fmap] in IH. by rewrite IH.
Qed.

(** X12.  The gravity centre follows the box: after a horizontal flip it
    is the old one with x negated, after a vertical flip the old one with
    y negated, and after a rotation the old one turned by the same
    matrix. *)
Theorem gravity_center_follows_the_box
    (b : BoxSet) (angle : R) (points : py_points) :
  gravity_center (after (flip "horizontal" points) b)
    = (λ g, (- vx g, vy g, vz g)) <$> gravity_center b
  ∧ gravity_center (after (flip "vertical" points) b)
    = (λ g, (vx g, - vy g, vz g)) <$> gravity_center b
  ∧ (wf b →
     gravity_center (after (rotate angle points) b)
     = (λ g, vec3_matmul g (rot_mat_T angle)) <$> gravity_center b).
Proof.
  unfold after. rewrite flip_horizontal_run, flip_vertical_run. cbn [fst].
  rewrite !gravity_center_rows. unfold flipped. cbn [tensor].
  rewrite <- !list_fmap_compose.
  split; [|split].
  - apply list_fmap_ext. intros i r _. cbn.
    rewrite !cell_flip_row_other by (reflexivity || (left; lia)).
    eval_flags. reflexivity.
  - apply list_fmap_ext. intros i r _. cbn.
    rewrite !cell_flip_row_other by (reflexivity || (left; lia)).
    eval_flags. reflexivity.
  - intros Hwf.
    assert (Hrow : ∀ i r (f : list R → list R),
      tensor b !! i = Some r →
      (∀ j, (j < 3)%nat → cell (f r) j = cell (matmul_xyz (rot_mat_T angle) r) j) →
      f r !! 5%nat = r !! 5%nat →
      (cell (f r) 0, cell (f r) 1, cell (f r) 2 + cell (f r) 5 * 0.5)
      = vec3_matmul (cell r 0, cell r 1, cell r 2 + cell r 5 * 0.5)
          (rot_mat_T angle)).
    { intros i r f Hr Hlow H5.
      pose proof (wf_row_length _ _ _ Hwf Hr) as Hlen.
      destruct (matmul_xyz_low angle r) as (H0 & H1 & H2); [lia|].
      assert (H5c : cell (f r) 5 = cell r 5) by (unfold cell; by rewrite H5).
      rewrite !Hlow by lia. rewrite H0, H1, H2, H5c.
      unfold vec3_matmul, rot_mat_T, mat3_T.
      f_equal; [f_equal|]; ring. }
    destruct (with_yaw b) eqn:Hw.
    + rewrite rotate_run_yaw by done. cbn [fst].
      unfold rotated. cbn [tensor].
      rewrite <- ?list_fmap_compose. apply list_fmap_ext. intros i r Hr. cbn.
      apply (Hrow i r (rotate_row angle) Hr).
      * intros j Hj. by apply rotate_row_low.
      * apply rotate_row_lookup_other; lia.
    + destruct (decide (tensor b = [])) as [Ht | Ht].
      * rewrite rotate_run_noyaw_empty by done. cbn [fst].
        rewrite Ht. reflexivity.
      * rewrite rotate_run_noyaw by done. cbn [fst].
        unfold rotated_noyaw. cbn [tensor].
        rewrite <- ?list_fmap_compose. apply list_fmap_ext. intros i r Hr. cbn.
        apply (Hrow i r (rotate_row_noyaw angle) Hr).
        -- intros j Hj. by apply rotate_row_noyaw_low.
        -- apply rotate_row_noyaw_lookup_other; lia.
Qed.

(** The box (1, 2, 3, 4, 5, 6, 0), turned by [PI / 3]. *)
Lemma gravity_center_follows_the_box_witness :
  let b := mkBoxSet [[1; 2; 3; 4; 5; 6; 0]] 7 true in
  gravity_center (after (rotate (PI / 3) PyNone) b)
  = (λ g, vec3_matmul g (rot_mat_T (PI / 3))) <$> gravity_center b.
Proof.
  intros b.
  refine (proj2 (proj2 (gravity_center_follows_the_box b (PI / 3) PyNone)) _).
  split; [cbn; lia | repeat constructor].
Defined.

Lemma corners_row_xs r :
  vx <$> corners_row r =
    (λ n : vec3,
       cell r 0 + vx n * (cell r 3 * cos (cell r 6))
       + vy n * - (cell r 4 * sin (cell r 6)))
    <$> corners_norm.
Proof.
  rewrite corners_row_eq, <- list_fmap_compose. apply list_fmap_ext.
  intros i [[nx ny] nz] _. cbn. unfold vx, vy, vz. cbn [fst snd]. ring.
Qed.

Lemma corners_row_ys r :
  vy <$> corners_row r =
    (λ n : vec3,
       cell r 1 + vx n * (cell r 3 * sin (cell r 6))
       + vy n * (cell r 4 * cos (cell r 6)))
    <$> corners_norm.
Proof.
  rewrite corners_row_eq, <- list_fmap_compose. apply list_fmap_ext.
  intros i [[nx ny] nz] _. cbn. unfold vx, vy, vz. cbn [fst snd]. ring.
Qed.

(** X13.  The mean of the eight corners of a box is its gravity centre,
    in all three coordinates and at every yaw. *)
Theorem corners_centroid_is_gravity_center
    (b : BoxSet) (i : nat) (r : list R) :
  tensor b !! i = Some r →
  ∃ css cs,
    corners b = Ok css ∧ css !! i = Some cs
    ∧ gravity_center b !! i
      = Some (mean (vx <$> cs), mean (vy <$> cs), mean (vz <$> cs)).
Proof.
  intros Hr. exists (corners_row <$> tensor b), (corners_row r).
  split; [by eapply corners_nonempty|].
  split; [by rewrite list_lookup_fmap, Hr|].
  rewrite gravity_center_rows, list_lookup_fmap, Hr. cbn [fmap option_fmap option_map].
  rewrite corners_row_xs, corners_row_ys, corners_row_heights, corners_norm_eq.
  unfold mean, vx, vy. cbn. do 2 f_equal; [f_equal|]; lra.
Qed.

(** A box turned by [PI / 3]. *)
Lemma corners_centroid_is_gravity_center_witness :
  let b := mkBoxSet [[1; 2; 3; 4; 5; 6; PI / 3]] 7 true in
  ∃ css cs,
    corners b = Ok css ∧ css !! 0%nat = Some cs
    ∧ gravity_center b !! 0%nat
      = Some (mean (vx <$> cs), mean (vy <$> cs), mean (vz <$> cs)).
Proof.
  intros b.
  exact (corners_centroid_is_gravity_center b 0%nat
           [1; 2; 3; 4; 5; 6; PI / 3] eq_refl).
Defined.

Lemma corners_norm_halves :
  corners_norm =
    [(- (1 / 2), - (1 / 2), 0); (- (1 / 2), - (1 / 2), 1);
     (- (1 / 2), 1 / 2, 1); (- (1 / 2), 1 / 2, 0);
     (1 / 2, - (1 / 2), 0); (1 / 2, - (1 / 2), 1);
     (1 / 2, 1 / 2, 1); (1 / 2, 1 / 2, 0)].
Proof. rewrite corners_norm_eq. repeat (f_equal; try lra). Qed.

(** X14.  Seen from above, the eight corners of a box all lie at the same
    distance from its centre, half the diagonal of the [sx] by [sy]
    rectangle, whatever the yaw. *)
Theorem corners_on_circle_about_center
    (b : BoxSet) (i : nat) (r : list R) :
  tensor b !! i = Some r →
  ∃ css cs,
    corners b = Ok css ∧ css !! i = Some cs ∧ length cs = 8%nat
    ∧ Forall (λ c,
        (vx c - cell r 0) * (vx c - cell r 0)
        + (vy c - cell r 1) * (vy c - cell r 1)
        = (cell r 3 * cell r 3 + cell r 4 * cell r 4) / 4) cs.
Proof.
  intros Hr. exists (corners_row <$> tensor b), (corners_row r).
  split; [by eapply corners_nonempty|].
  split; [by rewrite list_lookup_fmap, Hr|].
  rewrite corners_row_eq, corners_norm_halves. cbn [fmap list_fmap].
  split; [reflexivity|].
  pose proof (sin2_cos2 (cell r 6)) as Hsc. unfold Rsqr in Hsc.
  set (s := sin (cell r 6)) in *. set (c := cos (cell r 6)) in *.
  set (sx := cell r 3). set (sy := cell r 4).
  unfold vx, vy, vz. cbn [fst snd].
  repeat (constructor;
          [ cbn [fst snd];
            transitivity ((sx * sx + sy * sy) / 4 * (s * s + c * c));
            [field | rewrite Hsc; field] |]);
    constructor.
Qed.

(** The 6 by 8 box: every corner at distance 5 from the centre. *)
Lemma corners_on_circle_about_center_witness :
  let b := mkBoxSet [[1; 2; 3; 6; 8; 1; PI / 3]] 7 true in
  ∃ css cs,
    corners b = Ok css ∧ css !! 0%nat = Some cs ∧ length cs = 8%nat
    ∧ Forall (λ c,
        (vx c - 1) * (vx c - 1) + (vy c - 2) * (vy c - 2)
        = (6 * 6 + 8 * 8) / 4) cs.
Proof.
  intros b.
  exact (corners_on_circle_about_center b 0%nat
           [1; 2; 3; 6; 8; 1; PI / 3] eq_refl).
Defined.

Lemma length_corners_row r : length (corners_row r) = 8%nat.
Proof. rewrite corners_row_eq, corners_norm_eq. reflexivity. Qed.

(** X15.  [corners] refuses an empty table with [AssertionError], where
    [gravity_center], [bev] and [nearest_bev] answer with an empty result;
    on any other table it yields eight corners for each box. *)
Theorem corners_empty_table (b : BoxSet) :
  (tensor b = [] →
   corners b = Raise AssertionError
   ∧ gravity_center b = [] ∧ bev b = [] ∧ nearest_bev b = [])
  ∧ (tensor b ≠ [] →
     ∃ css, corners b = Ok css ∧ length css = length (tensor b)
            ∧ Forall (λ cs, length cs = 8%nat) css).
Proof.
  split.
  - intros Ht. unfold corners, gravity_center, bottom_center, nearest_bev, bev.
    by rewrite Ht.
  - intros Ht. exists (corners_row <$> tensor b).
    destruct (tensor b) as [|r t] eqn:Hb; [done|]. rewrite <- Hb.
    split; [apply (corners_nonempty b 0%nat r); by rewrite Hb|].
    split; [apply length_fmap|].
    apply Forall_fmap, Forall_forall. intros r' _.
    apply length_corners_row.
Qed.

(** The empty table. *)
Lemma corners_empty_table_witness :
  corners (mkBoxSet [] 7 true) = Raise AssertionError.
Proof.
  exact (proj1 (proj1 (corners_empty_table (mkBoxSet [] 7 true)) eq_refl)).
Defined.

(** ** [nearest_bev]: period, centre, principal range *)

Lemma limit_period_shift (v : R) (k : Z) :
  limit_period (v + IZR k * PI) 0.5 PI = limit_period v 0.5 PI.
Proof.
  unfold limit_period. pose proof PI_RGT_0.
  replace ((v + IZR k * PI) / PI + 0.5) with (v / PI + 0.5 + IZR k)
    by (unfold Rdiv; rewrite Rmult_plus_distr_r, Rmult_assoc, Rinv_r by lra; lra).
  rewrite Zfloor_addz, plus_IZR. lra.
Qed.

Lemma limit_period_principal (v : R) :
  - (PI / 2) <= v < PI / 2 → limit_period v 0.5 PI = v.
Proof.
  intros [Hlo Hhi]. unfold limit_period. pose proof PI_RGT_0 as Hpi.
  assert (Hu : v = v / PI * PI) by (field; lra).
  set (u := v / PI) in *.
  rewrite (Zfloor_eq 0); [lra|]. cbn. split; nra.
Qed.

Lemma nearest_bev_lookup b i r :
  tensor b !! i = Some r →
  nearest_bev b !! i
  = Some (nearest_bev_row (index_select [0; 1; 3; 4; 6]%nat r)).
Proof.
  intros Hr. unfold nearest_bev, bev. by rewrite !list_lookup_fmap, Hr.
Qed.

(** X16.  [nearest_bev] sees the yaw only up to half turns: two boxes with
    the same centre and sizes whose yaws differ by a whole number of half
    turns get the same rectangle. *)
Theorem nearest_bev_half_turn_periodic
    (b b' : BoxSet) (i : nat) (r r' : list R) (k : Z) :
  tensor b !! i = Some r → tensor b' !! i = Some r' →
  index_select [0; 1; 3; 4]%nat r' = index_select [0; 1; 3; 4]%nat r →
  cell r' 6 = cell r 6 + IZR k * PI →
  nearest_bev b' !! i = nearest_bev b !! i.
Proof.
  intros Hr Hr' Hsel Hyaw.
  rewrite (nearest_bev_lookup _ _ _ Hr), (nearest_bev_lookup _ _ _ Hr').
  rewrite !nearest_bev_row_eq, Hyaw, limit_period_shift.
  unfold index_select in Hsel. cbn in Hsel.
  injection Hsel as -> -> -> ->. reflexivity.
Qed.

(** A box at yaw [PI / 3] and the same box a half turn further. *)
Lemma nearest_bev_half_turn_periodic_witness :
  nearest_bev (mkBoxSet [[1; 2; 3; 4; 5; 6; PI / 3 + 1 * PI]] 7 true) !! 0%nat
  = nearest_bev (mkBoxSet [[1; 2; 3; 4; 5; 6; PI / 3]] 7 true) !! 0%nat.
Proof.
  exact (nearest_bev_half_turn_periodic
           (mkBoxSet [[1; 2; 3; 4; 5; 6; PI / 3]] 7 true)
           (mkBoxSet [[1; 2; 3; 4; 5; 6; PI / 3 + 1 * PI]] 7 true)
           0%nat [1; 2; 3; 4; 5; 6; PI / 3] [1; 2; 3; 4; 5; 6; PI / 3 + 1 * PI]
           1%Z eq_refl eq_refl eq_refl eq_refl).
Defined.

(** X17.  The rectangle of [nearest_bev] is always centred on the box and
    its width and height are the two horizontal sizes of the box, in one
    order or the other. *)
Theorem nearest_bev_centre_and_sizes (b : BoxSet) (i : nat) (r : list R) :
  tensor b !! i = Some r →
  ∃ x0 y0 x1 y1,
    nearest_bev b !! i = Some [x0; y0; x1; y1]
    ∧ (x0 + x1) / 2 = cell r 0 ∧ (y0 + y1) / 2 = cell r 1
    ∧ ((x1 - x0 = cell r 3 ∧ y1 - y0 = cell r 4)
       ∨ (x1 - x0 = cell r 4 ∧ y1 - y0 = cell r 3)).
Proof.
  intros Hr. rewrite (nearest_bev_lookup _ _ _ Hr), nearest_bev_row_eq.
  destruct (bool_decide _); do 4 eexists; (split; [reflexivity|]);
    (split; [lra|]); (split; [lra|]); [right | left]; split; lra.
Qed.

(** A 4 by 5 box at yaw [PI / 3]. *)
Lemma nearest_bev_centre_and_sizes_witness :
  ∃ x0 y0 x1 y1,
    nearest_bev (mkBoxSet [[1; 2; 3; 4; 5; 6; PI / 3]] 7 true) !! 0%nat
    = Some [x0; y0; x1; y1]
    ∧ (x0 + x1) / 2 = 1 ∧ (y0 + y1) / 2 = 2
    ∧ ((x1 - x0 = 4 ∧ y1 - y0 = 5) ∨ (x1 - x0 = 5 ∧ y1 - y0 = 4)).
Proof.
  exact (nearest_bev_centre_and_sizes
           (mkBoxSet [[1; 2; 3; 4; 5; 6; PI / 3]] 7 true) 0%nat
           [1; 2; 3; 4; 5; 6; PI / 3] eq_refl).
Defined.

(** X18.  For a yaw in [[-PI/2, PI/2)] the sizes are exchanged exactly
    when [|yaw| > PI/4]: at [PI/4] and [-PI/4] themselves, as at yaw 0,
    the rectangle keeps the box's own width and height. *)
Theorem nearest_bev_principal_range (b : BoxSet) (i : nat) (r : list R) :
  tensor b !! i = Some r →
  - (PI / 2) <= cell r 6 < PI / 2 →
  (Rabs (cell r 6) <= PI / 4 →
   nearest_bev b !! i
   = Some [cell r 0 - cell r 3 / 2; cell r 1 - cell r 4 / 2;
           cell r 0 + cell r 3 / 2; cell r 1 + cell r 4 / 2])
  ∧ (PI / 4 < Rabs (cell r 6) →
     nearest_bev b !! i
     = Some [cell r 0 - cell r 4 / 2; cell r 1 - cell r 3 / 2;
             cell r 0 + cell r 4 / 2; cell r 1 + cell r 3 / 2]).
Proof.
  intros Hr Hrange.
  rewrite (nearest_bev_lookup _ _ _ Hr), nearest_bev_row_eq.
  rewrite limit_period_principal by done.
  split; intros Hyaw.
  - by rewrite bool_decide_false by lra.
  - by rewrite bool_decide_true by lra.
Qed.

(** A 4 by 5 box at exactly [PI / 4] keeps its width and height. *)
Lemma nearest_bev_principal_range_witness :
  nearest_bev (mkBoxSet [[1; 2; 3; 4; 5; 6; PI / 4]] 7 true) !! 0%nat
  = Some [1 - 4 / 2; 2 - 5 / 2; 1 + 4 / 2; 2 + 5 / 2].
Proof.
  pose proof PI_RGT_0 as Hpi.
  refine (proj1 (nearest_bev_principal_range
                   (mkBoxSet [[1; 2; 3; 4; 5; 6; PI / 4]] 7 true) 0%nat
                   [1; 2; 3; 4; 5; 6; PI / 4] eq_refl _) _).
  - unfold cell. cbn. lra.
  - unfold cell. cbn. rewrite Rabs_pos_eq; lra.
Defined.

(** ** [in_range_bev]: bounds, order, flips *)

Lemma in_range_bev_flags (b : BoxSet) (x0 y0 x1 y1 : R) (rest : list R) :
  in_range_bev b (x0 :: y0 :: x1 :: y1 :: rest) =
    Ok ((λ r, bool_decide (x0 < cell r 0 < x1 ∧ y0 < cell r 1 < y1))
        <$> tensor b).
Proof.
  unfold in_range_bev. cbn [lookup list_lookup].
  f_equal. apply list_fmap_ext. intros i r _.
  apply eq_true_iff_eq.
  rewrite !andb_true_iff, !bool_decide_eq_true. unfold Rgt. tauto.
Qed.

(** X19.  A range of fewer than four numbers makes [in_range_bev] raise
    [IndexError], even on an empty table; with four or more it answers
    one flag for each box and reads the first four numbers only. *)
Theorem in_range_bev_range_length (b : BoxSet) (box_range : list R) :
  ((length box_range < 4)%nat → in_range_bev b box_range = Raise IndexError)
  ∧ ((4 ≤ length box_range)%nat →
     (∃ flags, in_range_bev b box_range = Ok flags
               ∧ length flags = length (tensor b))
     ∧ in_range_bev b box_range = in_range_bev b (take 4 box_range)).
Proof.
  split; intros Hlen.
  - destruct box_range as [|x0 [|y0 [|x1 [|y1 rest]]]];
      cbn in Hlen; try lia; reflexivity.
  - destruct box_range as [|x0 [|y0 [|x1 [|y1 rest]]]]; cbn in Hlen; try lia.
    cbn [take]. rewrite !in_range_bev_flags. split; [|reflexivity].
    eexists. split; [reflexivity|]. apply length_fmap.
Qed.

(** A range of three numbers. *)
Lemma in_range_bev_range_length_witness :
  in_range_bev (mkBoxSet [] 7 true) [-1; -1; 1] = Raise IndexError.
Proof.
  refine (proj1 (in_range_bev_range_length (mkBoxSet [] 7 true) [-1; -1; 1]) _).
  cbn. lia.
Defined.

(** X20.  A range that is empty along x or along y, its upper bound not
    above its lower bound, holds no box: every flag is false. *)
Theorem in_range_bev_empty_range (b : BoxSet) (xmin ymin xmax ymax : R) :
  xmax <= xmin ∨ ymax <= ymin →
  in_range_bev b [xmin; ymin; xmax; ymax]
  = Ok (replicate (length (tensor b)) false).
Proof.
  intros Hdeg. rewrite in_range_bev_flags. f_equal.
  induction (tensor b) as [|r t IH]; [reflexivity|].
  cbn [fmap list_fmap length replicate]. cbn [fmap list_fmap] in IH.
  rewrite IH. f_equal. apply bool_decide_eq_false. lra.
Qed.

(** The range from 1 down to -1 along x. *)
Lemma in_range_bev_empty_range_witness :
  in_range_bev (mkBoxSet [[0; 0; 0; 1; 1; 1; 0]] 7 true) [1; -1; -1; 1]
  = Ok [false].
Proof.
  refine (in_range_bev_empty_range
            (mkBoxSet [[0; 0; 0; 1; 1; 1; 0]] 7 true) 1 (-1) (-1) 1 _).
  left. lra.
Defined.

(** X21.  Widening the range never loses a box: a box flagged inside a
    range is flagged inside every range that holds it. *)
Theorem in_range_bev_monotone
    (b : BoxSet) (x0 y0 x1 y1 x0' y0' x1' y1' : R) (i : nat) :
  x0' <= x0 → y0' <= y0 → x1 <= x1' → y1 <= y1' →
  ∃ flags flags',
    in_range_bev b [x0; y0; x1; y1] = Ok flags
    ∧ in_range_bev b [x0'; y0'; x1'; y1'] = Ok flags'
    ∧ (flags !! i = Some true → flags' !! i = Some true).
Proof.
  intros Hx0 Hy0 Hx1 Hy1. rewrite !in_range_bev_flags.
  do 2 eexists. split; [reflexivity|]. split; [reflexivity|].
  rewrite !list_lookup_fmap. destruct (tensor b !! i) as [r|]; [|done].
  cbn. intros [= Hin]. f_equal.
  apply bool_decide_eq_true in Hin. apply bool_decide_eq_true. lra.
Qed.

(** A box inside the unit range is inside the range twice as wide. *)
Lemma in_range_bev_monotone_witness :
  let b := mkBoxSet [[0.5; 0.5; 0; 1; 1; 1; 0]] 7 true in
  ∃ flags flags',
    in_range_bev b [-1; -1; 1; 1] = Ok flags
    ∧ in_range_bev b [-2; -2; 2; 2] = Ok flags'
    ∧ (flags !! 0%nat = Some true → flags' !! 0%nat = Some true).
Proof.
  intros b.
  refine (in_range_bev_monotone b (-1) (-1) 1 1 (-2) (-2) 2 2 0%nat _ _ _ _);
    lra.
Defined.

(** X22.  Flipping the boxes and then testing a range is testing the
    mirrored range on the boxes as they were: for a horizontal flip the
    range [(-xmax, ymin, -xmin, ymax)], for a vertical flip the range
    [(xmin, -ymax, xmax, -ymin)]. *)
Theorem in_range_bev_after_flip
    (b : BoxSet) (points : py_points) (xmin ymin xmax ymax : R) :
  in_range_bev (after (flip "horizontal" points) b) [xmin; ymin; xmax; ymax]
    = in_range_bev b [- xmax; ymin; - xmin; ymax]
  ∧ in_range_bev (after (flip "vertical" points) b) [xmin; ymin; xmax; ymax]
    = in_range_bev b [xmin; - ymax; xmax; - ymin].
Proof.
  unfold after. rewrite flip_horizontal_run, flip_vertical_run. cbn [fst].
  rewrite !in_range_bev_flags. unfold flipped. cbn [tensor].
  rewrite <- !list_fmap_compose.
  split; f_equal; apply list_fmap_ext; intros i r _; cbn;
    rewrite !cell_flip_row_other by (reflexivity || (left; lia));
    eval_flags; apply bool_decide_ext; lra.
Qed.

(** ** Points: [points_in_boxes], and the points passed to [rotate] and
    [flip] *)

Lemma select_102_short p :
  (length p < 3)%nat → select_102 p = Raise IndexError.
Proof.
  intros Hlen. destruct p as [|x [|y [|z p]]]; cbn in Hlen; try lia; reflexivity.
Qed.

Lemma mapM_res_raises {A B} (f : A → res B) (l : list A) (e : exn) :
  (∀ x e', f x = Raise e' → e' = e) →
  Exists (λ x, f x = Raise e) l → mapM_res f l = Raise e.
Proof.
  intros Honly Hex. induction Hex as [x l Hx | x l _ IH]; cbn [mapM_res].
  - by rewrite Hx.
  - destruct (f x) as [y|e'] eqn:Hfx.
    + by rewrite IH.
    + by rewrite (Honly _ _ Hfx).
Qed.

Lemma select_102_only_index_error p e :
  select_102 p = Raise e → e = IndexError.
Proof.
  unfold select_102.
  destruct (p !! 1%nat), (p !! 0%nat), (p !! 2%nat); congruence.
Qed.

Lemma to_lidar_block_only_index_error p e :
  to_lidar_block p = Raise e → e = IndexError.
Proof.
  unfold to_lidar_block.
  destruct (mapM_res select_102 p) as [q|e'] eqn:Hq; [done|].
  intros [= <-]. clear -Hq. revert Hq.
  induction p as [|x p IH]; cbn [mapM_res]; [done|].
  destruct (select_102 x) as [y|e1] eqn:Hx.
  - destruct (mapM_res select_102 p); [done|].
    intros [= <-]. by apply IH.
  - intros [= <-]. by eapply select_102_only_index_error.
Qed.

Lemma to_lidar_block_short pts :
  Exists (λ p, (length p < 3)%nat) pts →
  to_lidar_block pts = Raise IndexError.
Proof.
  intros Hex. unfold to_lidar_block.
  rewrite (mapM_res_raises select_102 pts IndexError); [done | |].
  - intros x e'. apply select_102_only_index_error.
  - eapply Exists_impl; [exact Hex|]. intros p. apply select_102_short.
Qed.

(** X23.  A point with fewer than three columns makes [points_in_boxes]
    raise [IndexError], for a 2-dimensional input and for a 3-dimensional
    one; there the wrong index is met before the leading dimension is
    looked at, so the error is the same whatever the number of batches. *)
Theorem points_in_boxes_short_point
    (Box3DMode_convert :
       BoxSet → Box3DMode → Box3DMode → option (list (list R)) → BoxSet)
    (points_in_boxes_batch :
       list (list (list R)) → list (list (list R)) → list (list (list Z)))
    (b : BoxSet) (pts : list (list R)) :
  Exists (λ p, (length p < 3)%nat) pts →
  points_in_boxes Box3DMode_convert points_in_boxes_batch b (Pts2 pts)
    = Raise IndexError
  ∧ (∀ before rest : list (list (list R)),
       points_in_boxes Box3DMode_convert points_in_boxes_batch b
         (Pts3 (before ++ pts :: rest))
       = Raise IndexError).
Proof.
  intros Hex. pose proof (to_lidar_block_short pts Hex) as Hblock.
  split.
  - unfold points_in_boxes. by rewrite Hblock.
  - intros before rest. unfold points_in_boxes.
    rewrite (mapM_res_raises to_lidar_block _ IndexError); [done | |].
    + intros x e'. apply to_lidar_block_only_index_error.
    + apply Exists_app. right. by constructor.
Qed.

(** A point of two columns. *)
Lemma points_in_boxes_short_point_witness :
  let convert := λ (b : BoxSet) (_ _ : Box3DMode)
                   (_ : option (list (list R))), b in
  let batch := λ (p b : list (list (list R))),
                 (λ blk : list (list R), (λ _, [0%Z]) <$> blk) <$> p in
  points_in_boxes convert batch (mkBoxSet [] 7 true) (Pts2 [[1; 2]])
  = Raise IndexError.
Proof.
  intros convert batch.
  refine (proj1 (points_in_boxes_short_point convert batch
                   (mkBoxSet [] 7 true) [[1; 2]] _)).
  constructor. cbn. lia.
Defined.

Lemma select_102_take p : select_102 (take 3 p) = select_102 p.
Proof. unfold select_102. by rewrite !lookup_take_lt by lia. Qed.

Lemma mapM_res_fmap {A B C} (f : B → res C) (g : A → B) (l : list A) :
  mapM_res f (g <$> l) = mapM_res (f ∘ g) l.
Proof.
  induction l as [|x l IH]; [reflexivity|].
  cbn [fmap list_fmap mapM_res]. cbn [fmap list_fmap] in IH. by rewrite IH.
Qed.

Lemma mapM_res_ext {A B} (f g : A → res B) (l : list A) :
  (∀ x, f x = g x) → mapM_res f l = mapM_res g l.
Proof.
  intros Hfg. induction l as [|x l IH]; [reflexivity|].
  cbn [mapM_res]. by rewrite Hfg, IH.
Qed.

Lemma to_lidar_block_take pts :
  to_lidar_block (take 3 <$> pts) = to_lidar_block pts.
Proof.
  unfold to_lidar_block. rewrite mapM_res_fmap.
  by rewrite (mapM_res_ext _ select_102) by (intros x; apply select_102_take).
Qed.

(** X24.  [points_in_boxes] reads the first three columns of the points
    only: further columns never reach the primitive nor change the
    answer. *)
Theorem points_in_boxes_ignores_extra_columns
    (Box3DMode_convert :
       BoxSet → Box3DMode → Box3DMode → option (list (list R)) → BoxSet)
    (points_in_boxes_batch :
       list (list (list R)) → list (list (list R)) → list (list (list Z)))
    (b : BoxSet) (pts : list (list R)) (pts3 : list (list (list R))) :
  points_in_boxes Box3DMode_convert points_in_boxes_batch b
    (Pts2 (take 3 <$> pts))
  = points_in_boxes Box3DMode_convert points_in_boxes_batch b (Pts2 pts)
  ∧ points_in_boxes Box3DMode_convert points_in_boxes_batch b
      (Pts3 ((λ blk : list (list R), take 3 <$> blk) <$> pts3))
    = points_in_boxes Box3DMode_convert points_in_boxes_batch b (Pts3 pts3).
Proof.
  unfold points_in_boxes. split.
  - by rewrite to_lidar_block_take.
  - rewrite mapM_res_fmap.
    by rewrite (mapM_res_ext _ to_lidar_block)
      by (intros x; apply to_lidar_block_take).
Qed.

Lemma get_xyz_matmul_xyz a r :
  (3 ≤ length r)%nat →
  get_xyz (matmul_xyz (rot_mat_T a) r) = vec3_matmul (get_xyz r) (rot_mat_T a).
Proof.
  intros Hlen. destruct (matmul_xyz_low a r Hlen) as (H0 & H1 & H2).
  unfold get_xyz. rewrite H0, H1, H2.
  unfold vec3_matmul, rot_mat_T, mat3_T. f_equal; [f_equal|]; ring.
Qed.

Lemma get_xyz_alter_opp k r :
  (3 ≤ length r)%nat → (k < 3)%nat →
  get_xyz (alter Ropp k r)
  = (if bool_decide (k = 0%nat) then - cell r 0 else cell r 0,
     if bool_decide (k = 1%nat) then - cell r 1 else cell r 1,
     if bool_decide (k = 2%nat) then - cell r 2 else cell r 2).
Proof.
  intros Hlen Hk. destruct r as [|x [|y [|z r]]]; cbn in Hlen; try lia.
  destruct k as [|[|[|k]]]; try lia; reflexivity.
Qed.

(** X25.  Boxes and points move together: a point that sits on the
    bottom centre of a box still sits on it in what [rotate] and [flip]
    return, whatever the angle, the direction, and the kind of boxes. *)
Theorem points_stay_on_centres
    (b : BoxSet) (angle : R) (q : list (list R)) (i k : nat)
    (r pt : list R) :
  wf b → tensor b !! i = Some r → q !! k = Some pt →
  (3 ≤ length pt)%nat → get_xyz pt = get_xyz r →
  (∃ b' q' m r' pt',
     rotate angle (TorchTensor q) b = (b', Ok (Some (TorchTensor q', m)))
     ∧ tensor b' !! i = Some r' ∧ q' !! k = Some pt'
     ∧ get_xyz pt' = get_xyz r')
  ∧ (∃ b' q' r' pt',
       flip "horizontal" (TorchTensor q) b = (b', Ok (Some (TorchTensor q')))
       ∧ tensor b' !! i = Some r' ∧ q' !! k = Some pt'
       ∧ get_xyz pt' = get_xyz r')
  ∧ (∃ b' q' r' pt',
       flip "vertical" (TorchTensor q) b = (b', Ok (Some (TorchTensor q')))
       ∧ tensor b' !! i = Some r' ∧ q' !! k = Some pt'
       ∧ get_xyz pt' = get_xyz r').
Proof.
  intros Hwf Hr Hq Hpt Hxyz.
  pose proof (wf_row_length _ _ _ Hwf Hr) as Hlen.
  assert (Hrot : get_xyz (matmul_xyz (rot_mat_T angle) pt)
                 = get_xyz (matmul_xyz (rot_mat_T angle) r))
    by (rewrite !get_xyz_matmul_xyz by lia; by rewrite Hxyz).
  injection Hxyz as Hx Hy Hz.
  split; [|split].
  - destruct (with_yaw b) eqn:Hw.
    + rewrite rotate_run_yaw by done.
      do 5 eexists. split; [reflexivity|]. unfold rotated, rotate_points.
      cbn [tensor]. rewrite !list_lookup_fmap, Hr, Hq.
      split; [reflexivity|]. split; [reflexivity|].
      rewrite Hrot. unfold get_xyz. by rewrite !rotate_row_low by lia.
    + rewrite rotate_run_noyaw by (done || by intros Ht; rewrite Ht in Hr).
      do 5 eexists. split; [reflexivity|]. unfold rotated_noyaw, rotate_points.
      cbn [tensor]. rewrite !list_lookup_fmap, Hr, Hq.
      split; [reflexivity|]. split; [reflexivity|].
      rewrite Hrot. unfold get_xyz. by rewrite !rotate_row_noyaw_low by lia.
  - rewrite flip_horizontal_run.
    do 4 eexists. split; [reflexivity|]. unfold flipped, flip_points.
    cbn [tensor]. rewrite !list_lookup_fmap, Hr, Hq.
    split; [reflexivity|]. split; [reflexivity|].
    rewrite get_xyz_alter_opp by lia. unfold get_xyz.
    rewrite !cell_flip_row_other by (reflexivity || (left; lia)).
    eval_flags. by rewrite Hx, Hy, Hz.
  - rewrite flip_vertical_run.
    do 4 eexists. split; [reflexivity|]. unfold flipped, flip_points.
    cbn [tensor]. rewrite !list_lookup_fmap, Hr, Hq.
    split; [reflexivity|]. split; [reflexivity|].
    rewrite get_xyz_alter_opp by lia. unfold get_xyz.
    rewrite !cell_flip_row_other by (reflexivity || (left; lia)).
    eval_flags. by rewrite Hx, Hy, Hz.
Qed.

(** One box and a point on its bottom centre, turned by [PI / 3]. *)
Lemma points_stay_on_centres_witness :
  let b := mkBoxSet [[1; 2; 3; 4; 5; 6; 0]] 7 true in
  ∃ b' q' m r' pt',
    rotate (PI / 3) (TorchTensor [[1; 2; 3; 9]]) b
    = (b', Ok (Some (TorchTensor q', m)))
    ∧ tensor b' !! 0%nat = Some r' ∧ q' !! 0%nat = Some pt'
    ∧ get_xyz pt' = get_xyz r'.
Proof.
  intros b.
  refine (proj1 (points_stay_on_centres b (PI / 3) [[1; 2; 3; 9]] 0 0
                   [1; 2; 3; 4; 5; 6; 0] [1; 2; 3; 9] _ eq_refl eq_refl _ eq_refl)).
  - split; [cbn; lia | repeat constructor].
  - cbn. lia.
Defined.

